(** * The evaluation, ranking and regression core of the restyle benchmark

    A shallow embedding of the scoring ([run_acrue_v3.py]), aggregation,
    synthesis, validation and persistence ([benchmark_orchestrator.py]) and
    comparison ([compare_runs.py], [config.py]) code, followed by the
    properties proved about it.

    Conventions of the embedding:
    - a Python [float] or [int] score is an exact rational ([Q]); [round] is
      round-half-to-even on that rational;
    - a JSON object read with [.get(key, default)] is a record whose optional
      keys are [option] fields, [None] standing for an absent key;
    - a [dict] used as a map is a [gmap]; a [dict] whose iteration order is
      observed is an association list in insertion order;
    - a raised exception is a constructor of the [outcome] type. *)

From Stdlib Require Import QArith Qround Qabs Lqa Lia ZArith Sorted.
From stdpp Require Import gmap strings list pretty.

Local Open Scope Q_scope.

(** ** Python numerics *)

(** [round(x)] to the nearest integer, ties to the even one. *)
Definition round_half_even (x : Q) : Z :=
  let f := Qfloor x in
  match Qcompare (x - inject_Z f) (1 # 2) with
  | Lt => f
  | Gt => (f + 1)%Z
  | Eq => if Z.even f then f else (f + 1)%Z
  end.

Definition pow10 (ndigits : nat) : positive := Z.to_pos (10 ^ Z.of_nat ndigits).

(** [round(x, ndigits)]. *)
Definition py_round (x : Q) (ndigits : nat) : Q :=
  Qmake (round_half_even (x * inject_Z (Zpos (pow10 ndigits)))) (pow10 ndigits).

(** [sum(xs)] over numbers. *)
Definition py_sum (xs : list Q) : Q := foldl Qplus 0 xs.

(** [sum(xs) / len(xs)]; the code divides by the length of lists that hold
    at least one element. *)
Definition py_mean (xs : list Q) : Q :=
  py_sum xs / inject_Z (Z.of_nat (length xs)).

(** What a call can end in: a value, or one of the exceptions the code raises
    or lets escape. *)
Inductive outcome (A : Type) : Type :=
  | Returned (a : A)
  | RaisedValidationError (message : string)
  | RaisedKeyError (key : string)
  | RaisedIndexError
  | RaisedFileNotFoundError (message : string)
  | RaisedInvalidFileException.
Arguments Returned {A} a.
Arguments RaisedValidationError {A} message.
Arguments RaisedKeyError {A} key.
Arguments RaisedIndexError {A}.
Arguments RaisedFileNotFoundError {A} message.
Arguments RaisedInvalidFileException {A}.

(** [x < y] on numbers, as a test. *)
Definition Qlt_bool (x y : Q) : bool := negb (Qle_bool y x).

(** [f"{x:.1f}"]. *)
Definition format_1f (x : Q) : string :=
  let tenths := Z.abs (round_half_even (x * 10)) in
  (if Qlt_bool x 0 then "-" else "")
  +:+ pretty (tenths / 10)%Z +:+ "." +:+ pretty (tenths mod 10)%Z.

#[export] Instance Qeq_decision (x y : Q) : Decision (x == y) := Qeq_dec x y.

#[export] Instance Q_eq_dec : EqDecision Q.
Proof. solve_decision. Defined.

(** A stable sort: [before y x] says that [y] has to come strictly before
    [x]; elements that are not ordered by [before] keep their input order.
    [list.sort(key=k)] is [stable_sort (λ y x, k y < k x)],
    [list.sort(key=k, reverse=True)] is [stable_sort (λ y x, k x < k y)],
    both of which Python documents as stable. *)
Fixpoint stable_insert {A} (before : A → A → bool) (x : A) (l : list A) : list A :=
  match l with
  | [] => [x]
  | y :: ys => if before y x then y :: stable_insert before x ys else x :: y :: ys
  end.

Definition stable_sort {A} (before : A → A → bool) (l : list A) : list A :=
  foldr (stable_insert before) [] l.

(** [d.setdefault(k, []).append(v)] on a dict that remembers insertion
    order: the groups appear in the order their keys were first seen. *)
Fixpoint group_append {V} (k : string) (v : V) (groups : list (string * list V))
  : list (string * list V) :=
  match groups with
  | [] => [(k, [v])]
  | (k', vs) :: rest =>
      if decide (k = k') then (k', vs ++ [v]) :: rest
      else (k', vs) :: group_append k v rest
  end.

(** The exception monad of [outcome]: [x ← m; k] runs [k] on the value [m]
    returned and passes on the exception [m] raised. *)
#[export] Instance outcome_bind : MBind outcome := λ A B f m,
  match m with
  | Returned a => f a
  | RaisedValidationError msg => RaisedValidationError msg
  | RaisedKeyError key => RaisedKeyError key
  | RaisedIndexError => RaisedIndexError
  | RaisedFileNotFoundError msg => RaisedFileNotFoundError msg
  | RaisedInvalidFileException => RaisedInvalidFileException
  end.

(** [d[key]] on an optional key. *)
Definition item {A} (key : string) (field : option A) : outcome A :=
  match field with
  | Some a => Returned a
  | None => RaisedKeyError key
  end.

(** A [pathlib.Path] below the project root; [path_str] prints it relative
    to the root. *)
Inductive path :=
  | ProjectRoot
  | Join (base : path) (name : string).

#[export] Instance path_eq_dec : EqDecision path.
Proof. solve_decision. Defined.

(** [base / name]; the empty name adds nothing. *)
Definition path_div (base : path) (name : string) : path :=
  if decide (name = "") then base else Join base name.

Fixpoint path_str (p : path) : string :=
  match p with
  | ProjectRoot => "."
  | Join base name => path_str base +:+ "/" +:+ name
  end.

(** The line feed of ["\n".join(errors)]. *)
Definition newline : string :=
  String (Ascii.Ascii false true false true false false false false) EmptyString.

(** ** The run specification, run_spec.json

    The keys the validator reads with [.get] are optional; the others are
    read with [spec[key]] wherever they are used. *)
Record run_spec := {
  rs_run_id : string;
  rs_styles : option (list string);
  rs_image_count : option Z;
  rs_output_dir : option string;
  rs_baseline_run_id : option string;
  rs_feasibility_model : string;
  rs_preference_model : string;
  rs_feasibility_weight : Q;
  rs_preference_weight : Q;
  rs_pipeline_version : string;
  rs_acrue_version : string
}.

(** ** config.py *)

Module config.

Definition PROJECT_ROOT : path := ProjectRoot.
Definition RUNS_DIR : path := path_div PROJECT_ROOT "runs".
Definition RUN_SPEC_PATH : path := path_div PROJECT_ROOT "run_spec.json".
Definition EXCEL_PATH : path := path_div PROJECT_ROOT "ai_restyle_benchmark.xlsx".

Definition GRADE_THRESHOLDS : list (string * Q) :=
  [("A+", 90); ("A", 80); ("B", 70); ("C", 60); ("F", 0)].

Definition get_grade (percentage : Q) : string :=
  match List.find (λ gt, Qle_bool gt.2 percentage) GRADE_THRESHOLDS with
  | Some gt => gt.1
  | None => "F"
  end.

End config.

(** ** run_acrue_v3.py: the assertion-based scorer *)

Module run_acrue_v3.

Definition WEIGHTS : list (string * Q) :=
  [("accuracy", 1); ("completeness", 1); ("relevance", 1 # 2);
   ("usefulness", 1 # 2); ("exceptional", 2)].

Definition MAX_SCORE : Q := 25.

(** One assertion of the judge's answer; [a_confidence] is [None] when the
    item is not an object or has no ["confidence"] key. *)
Record assertion := {
  a_id : string;
  a_question : string;
  a_answer : string;
  a_confidence : option Q;
  a_evidence : string
}.

(** The judge's record for one dimension, every key optional. *)
Record dim_data := {
  dd_passed : option Z;
  dd_total : option Z;
  dd_avg_confidence : option Q;
  dd_dimension_score : option Q;
  dd_assertions : option (list assertion)
}.

(** [{}], the default of [dimensions_data.get(dimension, {})]. *)
Definition empty_dim_data : dim_data :=
  {| dd_passed := None; dd_total := None; dd_avg_confidence := None;
     dd_dimension_score := None; dd_assertions := None |}.

(** One entry of the dict [calculate_v3_scores] builds. *)
Record dim_score := {
  ds_weight : Q;
  ds_passed : Z;
  ds_total : Z;
  ds_pass_rate : string;
  ds_avg_confidence : Q;
  ds_dimension_score : Q;
  ds_weighted_score : Q;
  ds_assertions : list assertion
}.

Definition calculate_v3_scores (dimensions_data : gmap string dim_data)
  : list (string * dim_score) :=
  (λ '(dimension, weight),
     let dim_data := default empty_dim_data (dimensions_data !! dimension) in
     let passed := default 0%Z (dd_passed dim_data) in
     let total := default 1%Z (dd_total dim_data) in
     let avg_confidence := default 0 (dd_avg_confidence dim_data) in
     let dimension_score := default 0 (dd_dimension_score dim_data) in
     let weighted_score := dimension_score * weight in
     (dimension,
      {| ds_weight := weight;
         ds_passed := passed;
         ds_total := total;
         ds_pass_rate := pretty passed +:+ "/" +:+ pretty total;
         ds_avg_confidence := py_round avg_confidence 2;
         ds_dimension_score := py_round dimension_score 2;
         ds_weighted_score := py_round weighted_score 2;
         ds_assertions := default [] (dd_assertions dim_data) |}))
  <$> WEIGHTS.

Definition get_grade (percentage : Q) : string :=
  if Qle_bool 90 percentage then "A+"
  else if Qle_bool 80 percentage then "A"
  else if Qle_bool 70 percentage then "B"
  else if Qle_bool 60 percentage then "C"
  else "F".

Record v3_summary := {
  sm_total_assertions : Z;
  sm_total_passed : Z;
  sm_overall_pass_rate : string;
  sm_overall_avg_confidence : Q;
  sm_weighted_total : Q;
  sm_max_score : Q;
  sm_percentage : Q;
  sm_grade : string
}.

(** The two locals of [calculate_v3_summary] the reported figures are
    rounded from. *)
Definition summary_weighted_total (scores : list (string * dim_score)) : Q :=
  py_sum ((λ s, ds_weighted_score s.2) <$> scores).

Definition summary_percentage (scores : list (string * dim_score)) : Q :=
  (summary_weighted_total scores / MAX_SCORE) * 100.

Definition calculate_v3_summary (scores : list (string * dim_score)) : v3_summary :=
  let weighted_total := summary_weighted_total scores in
  let percentage := summary_percentage scores in
  let total_passed := foldl Z.add 0%Z ((λ s, ds_passed s.2) <$> scores) in
  let total_assertions := foldl Z.add 0%Z ((λ s, ds_total s.2) <$> scores) in
  let all_confidences :=
    scores ≫= (λ s, omap a_confidence (ds_assertions s.2)) in
  let avg_confidence :=
    match all_confidences with
    | [] => 0
    | _ => py_mean all_confidences
    end in
  {| sm_total_assertions := total_assertions;
     sm_total_passed := total_passed;
     sm_overall_pass_rate := pretty total_passed +:+ "/" +:+ pretty total_assertions;
     sm_overall_avg_confidence := py_round avg_confidence 2;
     sm_weighted_total := py_round weighted_total 2;
     sm_max_score := MAX_SCORE;
     sm_percentage := py_round percentage 1;
     sm_grade := get_grade percentage |}.

(** The local [dimension_score] of [calculate_v3_scores]: what the judge
    reported for the dimension, 0 when it reported nothing. *)
Definition reported_score (dimensions_data : gmap string dim_data)
    (dimension : string) : Q :=
  default 0 (dd_dimension_score
               (default empty_dim_data (dimensions_data !! dimension))).

End run_acrue_v3.

(** ** compare_runs.py: the regression comparator *)

Module compare_runs.

(** One entry of the ["rankings"] of synthesis.json: [r["style"]] and the
    keys read with [r.get]. *)
Record synthesis_ranking := {
  sr_style : string;
  sr_final_score : option Q;
  sr_gemini_rank : option Z;
  sr_opus_rank : option Z
}.

(** One entry of the ["rankings"] of gemini.json. *)
Record gemini_ranking := {
  gr_style : string;
  gr_avg_score : option Q;
  gr_avg_percentage : option Q;
  gr_avg_grade : option string
}.

(** The ["summary"] of an acrue.json entry: an object, or anything else
    (the evaluator also writes a plain string there). *)
Inductive summary_value :=
  | SummaryDict (percentage weighted_total : option Q) (grade : option string)
  | SummaryText (text : string).

Record acrue_entry := {
  ae_style : option string;
  ae_summary : option summary_value;
  ae_percentage : option Q;
  ae_weighted_total : option Q;
  ae_grade : option string
}.

(** A run directory: each file is [None] when it does not exist; a
    rankings file holds its ["rankings"] list, [[]] when the key is absent. *)
Record run_dir := {
  rd_synthesis : option (list synthesis_ranking);
  rd_gemini : option (list gemini_ranking);
  rd_acrue : option (list acrue_entry);
  rd_run_spec : option run_spec
}.

(** The dict kept per style. An outer [None] is an absent key; the three
    keys copied from synthesis.json hold [None] when [r.get] found nothing. *)
Record style_info := {
  si_final_score : option (option Q);
  si_gemini_rank : option (option Z);
  si_opus_rank : option (option Z);
  si_avg_score : option Q;
  si_avg_percentage : option Q;
  si_avg_grade : option string
}.

Definition empty_info : style_info :=
  {| si_final_score := None; si_gemini_rank := None; si_opus_rank := None;
     si_avg_score := None; si_avg_percentage := None; si_avg_grade := None |}.

(** [styles[r["style"]] = {"final_score": ..., "gemini_rank": ...,
    "opus_rank": ...}] for every ranking of synthesis.json. *)
Definition from_synthesis (rankings : list synthesis_ranking)
    (styles : gmap string style_info) : gmap string style_info :=
  foldl (λ styles r,
           <[sr_style r :=
               {| si_final_score := Some (sr_final_score r);
                  si_gemini_rank := Some (sr_gemini_rank r);
                  si_opus_rank := Some (sr_opus_rank r);
                  si_avg_score := None;
                  si_avg_percentage := None;
                  si_avg_grade := None |}]> styles)
        styles rankings.

(** [styles[style].update({"avg_score": ..., "avg_percentage": ...,
    "avg_grade": ...})] for every ranking of gemini.json. *)
Definition from_gemini (rankings : list gemini_ranking)
    (styles : gmap string style_info) : gmap string style_info :=
  foldl (λ styles r,
           let style := gr_style r in
           let info := default empty_info (styles !! style) in
           <[style :=
               {| si_final_score := si_final_score info;
                  si_gemini_rank := si_gemini_rank info;
                  si_opus_rank := si_opus_rank info;
                  si_avg_score := Some (default 0 (gr_avg_score r));
                  si_avg_percentage := Some (default 0 (gr_avg_percentage r));
                  si_avg_grade := Some (default "N/A" (gr_avg_grade r)) |}]> styles)
        styles rankings.

Record item_score := {
  is_percentage : Q;
  is_weighted_total : Q;
  is_grade : string
}.

(** The first loop over acrue.json: the per-image scores of each style. *)
Definition acrue_style_scores (acrue_data : list acrue_entry)
  : list (string * list item_score) :=
  foldl (λ style_scores entry,
           let style := default "" (ae_style entry) in
           if decide (style = "") then style_scores
           else
             let score :=
               match default (SummaryDict None None None) (ae_summary entry) with
               | SummaryDict percentage weighted_total grade =>
                   {| is_percentage := default 0 percentage;
                      is_weighted_total := default 0 weighted_total;
                      is_grade := default "N/A" grade |}
               | SummaryText _ =>
                   {| is_percentage := default 0 (ae_percentage entry);
                      is_weighted_total := default 0 (ae_weighted_total entry);
                      is_grade := default "N/A" (ae_grade entry) |}
               end in
             group_append style score style_scores)
        [] acrue_data.

(** The second loop: [setdefault] fills only the keys still missing. *)
Definition from_acrue (acrue_data : list acrue_entry)
    (styles : gmap string style_info) : gmap string style_info :=
  foldl (λ styles group,
           let style := group.1 in
           let scores := group.2 in
           let info := default empty_info (styles !! style) in
           let avg_pct := py_mean (is_percentage <$> scores) in
           let avg_wt := py_mean (is_weighted_total <$> scores) in
           <[style :=
               {| si_final_score := si_final_score info;
                  si_gemini_rank := si_gemini_rank info;
                  si_opus_rank := si_opus_rank info;
                  si_avg_score :=
                    Some (default (py_round avg_wt 2) (si_avg_score info));
                  si_avg_percentage :=
                    Some (default (py_round avg_pct 1) (si_avg_percentage info));
                  si_avg_grade :=
                    Some (default (config.get_grade avg_pct) (si_avg_grade info)) |}]>
             styles)
        styles (acrue_style_scores acrue_data).

Record loaded_run := {
  lr_run_id : string;
  lr_styles : gmap string style_info;
  lr_spec : option run_spec
}.

Definition load_run_results (runs : gmap string run_dir) (run_id : string)
  : outcome loaded_run :=
  match runs !! run_id with
  | None =>
      RaisedFileNotFoundError
        ("Run directory not found: " +:+ path_str (path_div config.RUNS_DIR run_id))
  | Some dir =>
      let styles := ∅ in
      let styles :=
        match rd_synthesis dir with
        | Some rankings => from_synthesis rankings styles
        | None => styles
        end in
      let styles :=
        match rd_gemini dir with
        | Some rankings => from_gemini rankings styles
        | None => styles
        end in
      let styles :=
        match rd_acrue dir with
        | Some acrue_data => from_acrue acrue_data styles
        | None => styles
        end in
      Returned {| lr_run_id := run_id; lr_styles := styles;
                  lr_spec := rd_run_spec dir |}
  end.

Record style_delta := {
  sd_style : string;
  sd_current_pct : Q;
  sd_baseline_pct : Q;
  sd_delta_pct : Q;
  sd_current_score : Q;
  sd_baseline_score : Q;
  sd_delta_score : Q;
  sd_current_grade : string;
  sd_baseline_grade : string;
  sd_status : string
}.

Record comparison_summary := {
  cs_improved : nat;
  cs_regressed : nat;
  cs_unchanged : nat;
  cs_overall_verdict : string
}.

Record comparison := {
  cmp_current_run_id : string;
  cmp_baseline_run_id : string;
  cmp_timestamp : string;
  cmp_styles : list style_delta;
  cmp_summary : comparison_summary
}.

(** The state of the loop over [all_styles]. *)
Record tally := {
  t_style_deltas : list style_delta;
  t_improved : nat;
  t_regressed : nat;
  t_unchanged : nat
}.

(** One iteration of the loop body. *)
Definition compare_style (current baseline : gmap string style_info)
    (acc : tally) (style : string) : tally :=
  let cur := default empty_info (current !! style) in
  let base := default empty_info (baseline !! style) in
  let cur_pct := default 0 (si_avg_percentage cur) in
  let base_pct := default 0 (si_avg_percentage base) in
  let cur_score := default 0 (si_avg_score cur) in
  let base_score := default 0 (si_avg_score base) in
  let delta_pct := py_round (cur_pct - base_pct) 1 in
  let delta_score := py_round (cur_score - base_score) 2 in
  let delta status :=
    {| sd_style := style;
       sd_current_pct := cur_pct;
       sd_baseline_pct := base_pct;
       sd_delta_pct := delta_pct;
       sd_current_score := cur_score;
       sd_baseline_score := base_score;
       sd_delta_score := delta_score;
       sd_current_grade := default "N/A" (si_avg_grade cur);
       sd_baseline_grade := default "N/A" (si_avg_grade base);
       sd_status := status |} in
  if Qlt_bool (Qabs delta_pct) (1 # 2) then
    {| t_style_deltas := t_style_deltas acc ++ [delta "unchanged"];
       t_improved := t_improved acc;
       t_regressed := t_regressed acc;
       t_unchanged := t_unchanged acc + 1 |}
  else if Qlt_bool 0 delta_pct then
    {| t_style_deltas := t_style_deltas acc ++ [delta "improved"];
       t_improved := t_improved acc + 1;
       t_regressed := t_regressed acc;
       t_unchanged := t_unchanged acc |}
  else
    {| t_style_deltas := t_style_deltas acc ++ [delta "REGRESSION"];
       t_improved := t_improved acc;
       t_regressed := t_regressed acc + 1;
       t_unchanged := t_unchanged acc |}.

(** [now] is what [datetime.now().isoformat()] returns. *)
Definition compare_runs (now : string) (runs : gmap string run_dir)
    (current_id baseline_id : string) : outcome comparison :=
  current ← load_run_results runs current_id;
  baseline ← load_run_results runs baseline_id;
  let all_styles :=
    stable_sort String.ltb
      (elements (dom (lr_styles current) ∪ dom (lr_styles baseline))) in
  let acc :=
    foldl (compare_style (lr_styles current) (lr_styles baseline))
          {| t_style_deltas := []; t_improved := 0; t_regressed := 0;
             t_unchanged := 0 |}
          all_styles in
  let verdict :=
    if decide (0 < t_regressed acc)%nat then "REGRESSION_DETECTED"
    else if decide (0 < t_improved acc)%nat then "IMPROVED"
    else "UNCHANGED" in
  Returned
    {| cmp_current_run_id := current_id;
       cmp_baseline_run_id := baseline_id;
       cmp_timestamp := now;
       cmp_styles := t_style_deltas acc;
       cmp_summary :=
         {| cs_improved := t_improved acc;
            cs_regressed := t_regressed acc;
            cs_unchanged := t_unchanged acc;
            cs_overall_verdict := verdict |} |}.

End compare_runs.

(** ** benchmark_orchestrator.py: validation, aggregation, synthesis and
    persistence *)

Module benchmark_orchestrator.

Definition SCRIPT_DIR : path := config.PROJECT_ROOT.

(** *** Phase 1: validation *)

(** What is at [RUN_SPEC_PATH]: nothing, text that is no JSON (with the
    decoder's message), or a run specification. *)
Inductive spec_file :=
  | SpecMissing
  | SpecInvalid (error : string)
  | SpecParsed (spec : run_spec).

(** What the validator reads from outside: the specification file, which
    paths exist, and the [GEMINI_API_KEY] of the process environment. *)
Record environment := {
  env_run_spec : spec_file;
  env_exists : path → bool;
  env_gemini_api_key : option string
}.

Definition load_run_spec (env : environment) : outcome run_spec :=
  match env_run_spec env with
  | SpecMissing =>
      RaisedValidationError
        ("V1 FAIL: run_spec.json not found at " +:+ path_str config.RUN_SPEC_PATH)
  | SpecInvalid e =>
      RaisedValidationError ("V2 FAIL: run_spec.json is not valid JSON: " +:+ e)
  | SpecParsed spec => Returned spec
  end.

(** [errors.append(message)] when [failed]. *)
Definition append_if (failed : bool) (message : string) (errors : list string)
  : list string :=
  if failed then errors ++ [message] else errors.

Definition validate_phase1 (env : environment) : outcome run_spec :=
  let errors := [] in
  match env_run_spec env with
  | SpecMissing =>
      let errors := errors ++ ["V1 FAIL: run_spec.json does not exist"] in
      RaisedValidationError (String.concat newline errors)
  | _ =>
      match load_run_spec env with
      | RaisedValidationError e =>
          let errors := errors ++ [e] in
          RaisedValidationError (String.concat newline errors)
      | Returned spec =>
          let styles := default [] (rs_styles spec) in
          let errors :=
            append_if (bool_decide (length styles ≠ 3%nat))
              ("V3 FAIL: styles must have exactly 3 items, got "
               +:+ pretty (length styles)) errors in
          let image_count := default 0%Z (rs_image_count spec) in
          let errors :=
            append_if (bool_decide (image_count ≠ 3%Z))
              ("V4 FAIL: image_count must be 3, got " +:+ pretty image_count)
              errors in
          let output_dir := path_div SCRIPT_DIR (default "" (rs_output_dir spec)) in
          let errors :=
            append_if (env_exists env output_dir)
              ("V5 FAIL: output_dir already exists: " +:+ path_str output_dir)
              errors in
          let errors :=
            match rs_baseline_run_id spec with
            | Some baseline_run_id =>
                if decide (baseline_run_id = "") then errors
                else
                  let baseline_dir := path_div config.RUNS_DIR baseline_run_id in
                  append_if (negb (env_exists env baseline_dir))
                    ("V6 FAIL: baseline_run_id directory not found: "
                     +:+ path_str baseline_dir) errors
            | None => errors
            end in
          let errors :=
            append_if
              (bool_decide (default "" (env_gemini_api_key env) = ""))
              "V7 FAIL: GEMINI_API_KEY environment variable not set" errors in
          match errors with
          | [] => Returned spec
          | _ => RaisedValidationError (String.concat newline errors)
          end
      | other => other
      end
  end.

(** The ["summary"] object of an evaluation, every key optional. *)
Record summary_dict := {
  sum_weighted_total : option Q;
  sum_percentage : option Q;
  sum_grade : option string
}.

(** One evaluation of acrue.json as [compute_feasibility_rankings] reads
    it: [result["style"]] has to be there and ["summary"], when there, is
    an object; the rest is read with [.get]. A dimension is kept as its
    ["weighted_score"], [None] when the key is absent. *)
Record acrue_result := {
  ar_style : string;
  ar_summary : option summary_dict;
  ar_total : option Q;
  ar_percentage : option Q;
  ar_grade : option string;
  ar_dimensions : option (gmap string (option Q))
}.

(** What the first loop appends to [style_scores[style]]. *)
Record item_scores := {
  it_weighted_total : Q;
  it_percentage : Q;
  it_grade : string;
  it_dimensions : gmap string (option Q)
}.

Definition read_item (result : acrue_result) : item_scores :=
  let summary :=
    default {| sum_weighted_total := None; sum_percentage := None;
               sum_grade := None |} (ar_summary result) in
  {| it_weighted_total :=
       default (default 0 (ar_total result)) (sum_weighted_total summary);
     it_percentage :=
       default (default 0 (ar_percentage result)) (sum_percentage summary);
     it_grade := default (default "F" (ar_grade result)) (sum_grade summary);
     it_dimensions := default ∅ (ar_dimensions result) |}.

(** The first loop: group by style. *)
Definition group_by_style (acrue_results : list acrue_result)
  : list (string * list item_scores) :=
  foldl (λ style_scores result,
           group_append (ar_style result) (read_item result) style_scores)
        [] acrue_results.

Definition grade_values : gmap string Q :=
  <["A+" := 5]> (<["A" := 4]> (<["B" := 3]> (<["C" := 2]> (<["F" := 1]> ∅)))).

(** The average of the grades' ordinals and the letter it is mapped
    back to. *)
Definition avg_grade_val (scores : list item_scores) : Q :=
  py_mean ((λ s, default 1 (grade_values !! it_grade s)) <$> scores).

Definition avg_grade_of (avg_grade_val : Q) : string :=
  if Qle_bool (9 # 2) avg_grade_val then "A+"
  else if Qle_bool (7 # 2) avg_grade_val then "A"
  else if Qle_bool (5 # 2) avg_grade_val then "B"
  else if Qle_bool (3 # 2) avg_grade_val then "C"
  else "F".

(** The five dimensions, each with its [dim.title()]. *)
Definition dimension_titles : list (string * string) :=
  [("accuracy", "Accuracy"); ("completeness", "Completeness");
   ("relevance", "Relevance"); ("usefulness", "Usefulness");
   ("exceptional", "Exceptional")].

Definition reasoning_of (scores : list item_scores) : string :=
  let dim_summaries :=
    dimension_titles ≫= (λ dim,
      let dim_scores :=
        (λ s, default 0 (default None (it_dimensions s !! dim.1))) <$> scores in
      match dim_scores with
      | [] => []
      | _ => [dim.2 +:+ ": " +:+ format_1f (py_mean dim_scores)]
      end) in
  "Average across " +:+ pretty (length scores) +:+ " images. "
  +:+ String.concat ", " dim_summaries.

(** An entry of [rankings_data], before the rank is known. *)
Record ranking_data := {
  rd_style : string;
  rd_avg_score : Q;
  rd_avg_percentage : Q;
  rd_avg_grade : string;
  rd_reasoning : string
}.

(** The second loop body: the averages of one style. *)
Definition summarize (group : string * list item_scores) : ranking_data :=
  let scores := group.2 in
  let avg_score := py_mean (it_weighted_total <$> scores) in
  let avg_pct := py_mean (it_percentage <$> scores) in
  {| rd_style := group.1;
     rd_avg_score := py_round avg_score 2;
     rd_avg_percentage := py_round avg_pct 1;
     rd_avg_grade := avg_grade_of (avg_grade_val scores);
     rd_reasoning := reasoning_of scores |}.

(** An entry of the returned ["rankings"]. *)
Record style_ranking := {
  rk_rank : Z;
  rk_style : string;
  rk_avg_score : Q;
  rk_avg_percentage : Q;
  rk_avg_grade : string;
  rk_reasoning : string
}.

(** [rankings_data.sort(key=lambda x: x["avg_score"], reverse=True)]. *)
Definition sort_rankings_data (rankings_data : list ranking_data)
  : list ranking_data :=
  stable_sort (λ y x, Qlt_bool (rd_avg_score x) (rd_avg_score y)) rankings_data.

(** [enumerate(rankings_data, 1)]. *)
Definition assign_ranks (rankings_data : list ranking_data) : list style_ranking :=
  imap (λ i data,
          {| rk_rank := Z.of_nat (S i);
             rk_style := rd_style data;
             rk_avg_score := rd_avg_score data;
             rk_avg_percentage := rd_avg_percentage data;
             rk_avg_grade := rd_avg_grade data;
             rk_reasoning := rd_reasoning data |})
       rankings_data.

Record feasibility_rankings := {
  fr_judge : string;
  fr_timestamp : string;
  fr_methodology : string;
  fr_rankings : list style_ranking
}.

(** [gemini_model] is [config.GEMINI_MODEL], [now] what
    [datetime.now().isoformat()] returns. *)
Definition compute_feasibility_rankings (gemini_model now : string)
    (acrue_results : list acrue_result) : feasibility_rankings :=
  let style_scores := group_by_style acrue_results in
  let rankings_data := summarize <$> style_scores in
  let rankings_data := sort_rankings_data rankings_data in
  {| fr_judge := gemini_model +:+ " (ACRUE v3)";
     fr_timestamp := now;
     fr_methodology := "Rankings computed from ACRUE v3 weighted_total averages";
     fr_rankings := assign_ranks rankings_data |}.

(** One entry of a judge's ["rankings"], as [synthesize_results] reads it:
    [r["style"]] and [r["rank"]]. *)
Record judge_ranking := {
  jr_style : string;
  jr_rank : Z
}.

(** [{r["style"]: r["rank"] for r in rankings}]: a later entry replaces an
    earlier one of the same style. *)
Definition rank_lookup (rankings : list judge_ranking) : gmap string Z :=
  foldl (λ ranks r, <[jr_style r := jr_rank r]> ranks) ∅ rankings.

(** An entry of [final_scores] before and after [item["rank"] = i]. *)
Record scored_style := {
  ss_style : string;
  ss_gemini_rank : Z;
  ss_opus_rank : Z;
  ss_final_score : Q
}.

Record synthesis_entry := {
  se_style : string;
  se_gemini_rank : Z;
  se_opus_rank : Z;
  se_final_score : Q;
  se_rank : Z
}.

Record synthesis := {
  syn_winner : string;
  syn_rankings : list synthesis_entry;
  syn_feasibility_weight : Q;
  syn_preference_weight : Q
}.

(** The body of the loop over [spec["styles"]]. *)
Definition score_style (feasibility_weight preference_weight : Q)
    (gemini_ranks opus_ranks : gmap string Z) (style : string) : scored_style :=
  let g_rank := default 3%Z (gemini_ranks !! style) in
  let o_rank := default 3%Z (opus_ranks !! style) in
  {| ss_style := style;
     ss_gemini_rank := g_rank;
     ss_opus_rank := o_rank;
     ss_final_score :=
       feasibility_weight * inject_Z g_rank + preference_weight * inject_Z o_rank |}.

(** [final_scores.sort(key=lambda x: x["final_score"])]. *)
Definition sort_final_scores (final_scores : list scored_style) : list scored_style :=
  stable_sort (λ y x, Qlt_bool (ss_final_score y) (ss_final_score x)) final_scores.

Definition assign_final_ranks (final_scores : list scored_style)
  : list synthesis_entry :=
  imap (λ i item,
          {| se_style := ss_style item;
             se_gemini_rank := ss_gemini_rank item;
             se_opus_rank := ss_opus_rank item;
             se_final_score := ss_final_score item;
             se_rank := Z.of_nat (S i) |})
       final_scores.

Definition synthesize_results (spec : run_spec)
    (gemini_rankings opus_rankings : list judge_ranking) : outcome synthesis :=
  let feasibility_weight := rs_feasibility_weight spec in
  let preference_weight := rs_preference_weight spec in
  let gemini_ranks := rank_lookup gemini_rankings in
  let opus_ranks := rank_lookup opus_rankings in
  styles ← item "styles" (rs_styles spec);
  let final_scores :=
    score_style feasibility_weight preference_weight gemini_ranks opus_ranks
      <$> styles in
  let final_scores := assign_final_ranks (sort_final_scores final_scores) in
  match final_scores with
  | [] => RaisedIndexError
  | first :: _ =>
      Returned {| syn_winner := se_style first;
                  syn_rankings := final_scores;
                  syn_feasibility_weight := feasibility_weight;
                  syn_preference_weight := preference_weight |}
  end.

(** *** Phase 7: the Excel ledger

    openpyxl is taken at its documented behaviour: a worksheet is its cells
    by (row, column), counted from 1, and [max_row] the greatest row that
    has a cell (1 for an empty sheet); a workbook is its sheets in order,
    looked up by title. Fonts and fills are left out. *)

Inductive cell_value :=
  | CellStr (s : string)
  | CellInt (z : Z)
  | CellNum (q : Q)
  | CellNone.

#[export] Instance cell_value_eq_dec : EqDecision cell_value.
Proof. solve_decision. Defined.

Abbreviation worksheet := (gmap (nat * nat) cell_value).

Definition max_row (ws : worksheet) : nat :=
  map_fold (λ cell _ row, max cell.1 row) 1%nat ws.

(** [ws.cell(row, column).value is None]. *)
Definition cell_is_none (ws : worksheet) (row column : nat) : bool :=
  match ws !! (row, column) with
  | None | Some CellNone => true
  | Some _ => false
  end.

(** [for col, value in enumerate(values, 1):
      ws.cell(row=row, column=col, value=value)]. *)
Definition write_row (row : nat) (values : list cell_value) (ws : worksheet)
  : worksheet :=
  foldl (λ ws cell, <[(row, cell.1) := cell.2]> ws) ws
        (zip (seq 1 (length values)) values).

Definition summary_headers : list string :=
  ["run_id"; "timestamp"; "pipeline_version"; "acrue_version";
   "styles"; "image_count"; "winner"; "gemini_top"; "opus_top";
   "artifacts_path"; "vs_baseline"; "regressions"; "improvements"].

Definition _create_summary_headers (ws : worksheet) : worksheet :=
  write_row 1 (CellStr <$> summary_headers) ws.

Abbreviation workbook := (list (string * worksheet)).

(** [wb[title]]: the first sheet of that title. *)
Definition sheet (title : string) (wb : workbook) : option worksheet :=
  snd <$> List.find (λ s, bool_decide (s.1 = title)) wb.

(** A change made to the worksheet object [wb[title]]. *)
Fixpoint sheet_alter (f : worksheet → worksheet) (title : string) (wb : workbook)
  : workbook :=
  match wb with
  | [] => []
  | (t, ws) :: rest =>
      if decide (t = title) then (t, f ws) :: rest
      else (t, ws) :: sheet_alter f title rest
  end.

(** [del wb[title]]. *)
Fixpoint sheet_delete (title : string) (wb : workbook) : workbook :=
  match wb with
  | [] => []
  | (t, ws) :: rest =>
      if decide (t = title) then rest else (t, ws) :: sheet_delete title rest
  end.

(** What is on disk at a path: a workbook [load_workbook] opens, or bytes
    it rejects. *)
Inductive file :=
  | Xlsx (wb : workbook)
  | NotXlsx (bytes : list N).

Definition OLE2_MAGIC : list N := [208; 207; 17; 224]%N.

(** [_is_valid_xlsx], given what is at the path. The bytes of a file that
    [load_workbook] opens start with the ZIP signature, not with the OLE2
    one. *)
Definition _is_valid_xlsx (at_path : option file) : bool :=
  match at_path with
  | None => false
  | Some (Xlsx _) => true
  | Some (NotXlsx bytes) =>
      if decide (take 4 bytes = OLE2_MAGIC) then false
      else (* load_workbook raises *) false
  end.

(** The two files the ledger touches: [EXCEL_PATH] and
    [EXCEL_PATH.with_suffix(".xls.bak")]. *)
Record ledger_files := {
  lf_excel : option file;
  lf_backup : option file
}.

(** The header migration of the summary sheet. *)
Definition migrate_headers (summary_ws : worksheet) : worksheet :=
  if cell_is_none summary_ws 1 11 then
    <[(1%nat, 13%nat) := CellStr "improvements"]>
      (<[(1%nat, 12%nat) := CellStr "regressions"]>
         (<[(1%nat, 11%nat) := CellStr "vs_baseline"]> summary_ws))
  else summary_ws.

(** The loop that finds each judge's top style: the last entry of rank 1. *)
Definition top_style (rank_of : synthesis_entry → Z) (rankings : list synthesis_entry)
  : option string :=
  foldl (λ top r, if decide (rank_of r = 1%Z) then Some (se_style r) else top)
        None rankings.

Definition cell_of_top (top : option string) : cell_value :=
  match top with
  | Some style => CellStr style
  | None => CellNone
  end.

(** The detail sheet of a run. *)
Definition detail_sheet (run_id : string) (synthesis : synthesis) : worksheet :=
  let run_ws := ∅ in
  let run_ws := <[(1%nat, 1%nat) := CellStr ("Benchmark Run: " +:+ run_id)]> run_ws in
  let run_ws :=
    <[(2%nat, 1%nat) := CellStr ("Winner: " +:+ syn_winner synthesis)]> run_ws in
  let run_ws := <[(4%nat, 1%nat) := CellStr "Final Rankings"]> run_ws in
  let run_ws :=
    write_row 5 (CellStr <$> ["Rank"; "Style"; "Gemini Rank"; "Opus Rank";
                              "Final Score"]) run_ws in
  foldl (λ run_ws ir,
           write_row ir.1 [CellInt (se_rank ir.2); CellStr (se_style ir.2);
                           CellInt (se_gemini_rank ir.2);
                           CellInt (se_opus_rank ir.2);
                           CellNum (se_final_score ir.2)] run_ws)
        run_ws
        (zip (seq 6 (length (syn_rankings synthesis))) (syn_rankings synthesis)).

(** Everything [persist_to_excel] does to the workbook between opening and
    saving it. *)
Definition persist_workbook (now : string) (spec : run_spec) (synthesis : synthesis)
    (comparison : option compare_runs.comparison) (wb : workbook)
  : outcome workbook :=
  let run_id := rs_run_id spec in
  let wb :=
    if decide ("Summary" ∈ wb.*1) then wb
    else ("Summary", _create_summary_headers ∅) :: wb in
  let wb := sheet_alter migrate_headers "Summary" wb in
  let next_row := (max_row (default ∅ (sheet "Summary" wb)) + 1)%nat in
  let gemini_top := top_style se_gemini_rank (syn_rankings synthesis) in
  let opus_top := top_style se_opus_rank (syn_rankings synthesis) in
  let vs_baseline :=
    default "" (compare_runs.cmp_baseline_run_id <$> comparison) in
  let regressions :=
    default 0%nat
      ((λ c, compare_runs.cs_regressed (compare_runs.cmp_summary c)) <$> comparison) in
  let improvements :=
    default 0%nat
      ((λ c, compare_runs.cs_improved (compare_runs.cmp_summary c)) <$> comparison) in
  styles ← item "styles" (rs_styles spec);
  image_count ← item "image_count" (rs_image_count spec);
  output_dir ← item "output_dir" (rs_output_dir spec);
  let summary_data :=
    [CellStr run_id; CellStr now; CellStr (rs_pipeline_version spec);
     CellStr (rs_acrue_version spec); CellStr (String.concat ", " styles);
     CellInt image_count; CellStr (syn_winner synthesis);
     cell_of_top gemini_top; cell_of_top opus_top; CellStr output_dir;
     CellStr vs_baseline; CellInt (Z.of_nat regressions);
     CellInt (Z.of_nat improvements)] in
  let wb := sheet_alter (write_row next_row summary_data) "Summary" wb in
  let wb := if decide (run_id ∈ wb.*1) then sheet_delete run_id wb else wb in
  Returned (wb ++ [(run_id, detail_sheet run_id synthesis)]).

(** The recovery step: a file that is there but is no valid .xlsx is copied
    to the backup ([shutil.copy2]) and removed ([unlink]). *)
Definition back_up_invalid (files : ledger_files) : ledger_files :=
  if bool_decide (is_Some (lf_excel files)) && negb (_is_valid_xlsx (lf_excel files))
  then {| lf_excel := None; lf_backup := lf_excel files |}
  else files.

(** [load_workbook(EXCEL_PATH)] if the file exists, else a new workbook
    whose only sheet is the summary sheet with its header. *)
Definition open_or_create (files : ledger_files) : outcome workbook :=
  match lf_excel files with
  | Some (Xlsx wb) => Returned wb
  | Some (NotXlsx _) => RaisedInvalidFileException
  | None => Returned [("Summary", _create_summary_headers ∅)]
  end.

(** [persist_to_excel]: the files it leaves and how it ends; the workbook
    is saved only when nothing was raised before [wb.save].
    [openpyxl_available] is [OPENPYXL_AVAILABLE], [now] what
    [datetime.now().isoformat()] returns. *)
Definition persist_to_excel (openpyxl_available : bool) (now : string)
    (spec : run_spec) (synthesis : synthesis)
    (comparison : option compare_runs.comparison) (files : ledger_files)
  : ledger_files * outcome () :=
  if negb openpyxl_available then (files, Returned ())
  else
    let files := back_up_invalid files in
    match open_or_create files ≫= persist_workbook now spec synthesis comparison with
    | Returned wb =>
        ({| lf_excel := Some (Xlsx wb); lf_backup := lf_backup files |},
         Returned ())
    | RaisedValidationError message => (files, RaisedValidationError message)
    | RaisedKeyError key => (files, RaisedKeyError key)
    | RaisedIndexError => (files, RaisedIndexError)
    | RaisedFileNotFoundError message => (files, RaisedFileNotFoundError message)
    | RaisedInvalidFileException => (files, RaisedInvalidFileException)
    end.

End benchmark_orchestrator.

(** ** Sample inputs *)

(** The synthesis of three styles ranked alike by both judges. *)
Definition sample_synthesis : benchmark_orchestrator.synthesis :=
  {| benchmark_orchestrator.syn_winner := "Anime";
     benchmark_orchestrator.syn_rankings :=
       (λ r, {| benchmark_orchestrator.se_style := r.1;
                benchmark_orchestrator.se_gemini_rank := r.2;
                benchmark_orchestrator.se_opus_rank := r.2;
                benchmark_orchestrator.se_final_score := inject_Z r.2;
                benchmark_orchestrator.se_rank := r.2 |})
       <$> [("Anime", 1%Z); ("Pop Art", 2%Z); ("Storybook", 3%Z)];
     benchmark_orchestrator.syn_feasibility_weight := 1 # 2;
     benchmark_orchestrator.syn_preference_weight := 1 # 2 |}.

(** No ledger on disk yet. *)
Definition no_ledger : benchmark_orchestrator.ledger_files :=
  {| benchmark_orchestrator.lf_excel := None;
     benchmark_orchestrator.lf_backup := None |}.

(** A ledger file in the old OLE2 format. *)
Definition ole2_ledger : benchmark_orchestrator.ledger_files :=
  {| benchmark_orchestrator.lf_excel :=
       Some (benchmark_orchestrator.NotXlsx [208; 207; 17; 224; 161; 177; 26; 225]%N);
     benchmark_orchestrator.lf_backup := None |}.

(** A specification with two styles, four images and a baseline. *)
Definition short_spec : run_spec :=
  {| rs_run_id := "Run_2026_02_04";
     rs_styles := Some ["Anime"; "Pop Art"];
     rs_image_count := Some 4%Z;
     rs_output_dir := Some "runs/Run_2026_02_04";
     rs_baseline_run_id := Some "Run_2026_02_03";
     rs_feasibility_model := "gemini-2.0-flash";
     rs_preference_model := "claude-opus";
     rs_feasibility_weight := 1 # 2;
     rs_preference_weight := 1 # 2;
     rs_pipeline_version := "1.1.0";
     rs_acrue_version := "v3" |}.

(** An environment in which only the directory of the baseline run exists. *)
Definition sample_environment (file : benchmark_orchestrator.spec_file)
    (key : option string) : benchmark_orchestrator.environment :=
  {| benchmark_orchestrator.env_run_spec := file;
     benchmark_orchestrator.env_exists :=
       λ p, bool_decide (p = path_div config.RUNS_DIR "Run_2026_02_03");
     benchmark_orchestrator.env_gemini_api_key := key |}.

(** An evaluation as the scorer writes it: the summary holds the weighted
    total, its percentage and the grade of that percentage. *)
Definition scored_evaluation (style : string) (weighted_total : Q)
  : benchmark_orchestrator.acrue_result :=
  let percentage := weighted_total / 25 * 100 in
  {| benchmark_orchestrator.ar_style := style;
     benchmark_orchestrator.ar_summary :=
       Some {| benchmark_orchestrator.sum_weighted_total := Some weighted_total;
               benchmark_orchestrator.sum_percentage := Some percentage;
               benchmark_orchestrator.sum_grade :=
                 Some (run_acrue_v3.get_grade percentage) |};
     benchmark_orchestrator.ar_total := None;
     benchmark_orchestrator.ar_percentage := None;
     benchmark_orchestrator.ar_grade := None;
     benchmark_orchestrator.ar_dimensions := None |}.

(** Two evaluations of one style, at 90% (A+) and 60% (C). *)
Definition uneven_evaluations : list benchmark_orchestrator.acrue_result :=
  [scored_evaluation "Anime" (45 # 2); scored_evaluation "Anime" 15].

(** Two styles with the same average, interleaved with a third. *)
Definition tied_evaluations : list benchmark_orchestrator.acrue_result :=
  [scored_evaluation "Pop Art" 20; scored_evaluation "Anime" 20;
   scored_evaluation "Storybook" 25; scored_evaluation "Anime" 20;
   scored_evaluation "Pop Art" 20].

(** A run specification with the styles and synthesis weights given. *)
Definition sample_spec (styles : list string) (feasibility_weight preference_weight : Q)
  : run_spec :=
  {| rs_run_id := "Run_2026_02_04";
     rs_styles := Some styles;
     rs_image_count := Some 3%Z;
     rs_output_dir := Some "runs/Run_2026_02_04";
     rs_baseline_run_id := None;
     rs_feasibility_model := "gemini-2.0-flash";
     rs_preference_model := "claude-opus";
     rs_feasibility_weight := feasibility_weight;
     rs_preference_weight := preference_weight;
     rs_pipeline_version := "1.1.0";
     rs_acrue_version := "v3" |}.

(** A judge's rankings, from (style, rank) pairs. *)
Definition judge_ranks (ranks : list (string * Z))
  : list benchmark_orchestrator.judge_ranking :=
  (λ r, {| benchmark_orchestrator.jr_style := r.1;
           benchmark_orchestrator.jr_rank := r.2 |}) <$> ranks.




(** A judge answer that reports the same score on every dimension. *)
Definition judge_reports (score : Q) : gmap string run_acrue_v3.dim_data :=
  list_to_map
    ((λ d, (d.1, {| run_acrue_v3.dd_passed := Some 5%Z;
                    run_acrue_v3.dd_total := Some 5%Z;
                    run_acrue_v3.dd_avg_confidence := Some 5;
                    run_acrue_v3.dd_dimension_score := Some score;
                    run_acrue_v3.dd_assertions := Some [] |})) <$> run_acrue_v3.WEIGHTS).

(** ** Vocabulary of the statements *)

Module validator_rules.

Import benchmark_orchestrator.

(** The precondition checks made on a parsed specification. *)
Inductive check := V3 | V4 | V5 | V6 | V7.

Definition all_checks : list check := [V3; V4; V5; V6; V7].

(** What each check requires. *)
Definition check_passes (env : environment) (spec : run_spec) (c : check) : Prop :=
  match c with
  | V3 => length (default [] (rs_styles spec)) = 3%nat
  | V4 => rs_image_count spec = Some 3%Z
  | V5 => env_exists env (path_div SCRIPT_DIR (default "" (rs_output_dir spec)))
          = false
  | V6 => ∀ baseline, rs_baseline_run_id spec = Some baseline → baseline ≠ "" →
                      env_exists env (path_div config.RUNS_DIR baseline) = true
  | V7 => ∃ key, env_gemini_api_key env = Some key ∧ key ≠ ""
  end.

(** The line a failed check contributes to the error. *)
Definition check_message (env : environment) (spec : run_spec) (c : check) : string :=
  match c with
  | V3 => "V3 FAIL: styles must have exactly 3 items, got "
          +:+ pretty (length (default [] (rs_styles spec)))
  | V4 => "V4 FAIL: image_count must be 3, got "
          +:+ pretty (default 0%Z (rs_image_count spec))
  | V5 => "V5 FAIL: output_dir already exists: "
          +:+ path_str (path_div SCRIPT_DIR (default "" (rs_output_dir spec)))
  | V6 => "V6 FAIL: baseline_run_id directory not found: "
          +:+ path_str (path_div config.RUNS_DIR
                          (default "" (rs_baseline_run_id spec)))
  | V7 => "V7 FAIL: GEMINI_API_KEY environment variable not set"
  end.


#[export] Instance check_passes_dec env spec c : Decision (check_passes env spec c).
Proof.
  destruct c; cbn; try apply _.
  - destruct (rs_baseline_run_id spec) as [baseline |].
    + destruct (decide (baseline = "")) as [-> | Hne].
      * left. by intros ? [= <-].
      * destruct (env_exists env (path_div config.RUNS_DIR baseline)) eqn:E.
        -- left. by intros ? [= <-].
        -- right. intros H. specialize (H baseline eq_refl Hne). congruence.
    + left. by intros.
  - destruct (env_gemini_api_key env) as [key |].
    + destruct (decide (key = "")) as [-> | Hne].
      * right. by intros (? & [= <-] & ?).
      * left. by exists key.
    + right. by intros (? & ? & ?).
Defined.

(** The checks that fail, in the order they are made. *)
Definition failed_checks (env : environment) (spec : run_spec) : list check :=
  filter (λ c, ¬ check_passes env spec c) all_checks.

End validator_rules.

Module ledger_rules.

Import benchmark_orchestrator.

(** The data rows (below the header) of a summary sheet whose first cell
    is the run id. *)
Definition summary_rows (run_id : string) (summary_ws : worksheet) : list nat :=
  filter (λ row, summary_ws !! (row, 1%nat) = Some (CellStr run_id))
         (seq 2 (max_row summary_ws - 1)).

(** The sheets of a workbook that carry a title. *)
Definition sheets_titled (title : string) (wb : workbook) : workbook :=
  filter (λ s, s.1 = title) wb.

(** The summary sheet of the ledger on disk, empty when there is none. *)
Definition summary_on_disk (files : ledger_files) : worksheet :=
  match lf_excel files with
  | Some (Xlsx wb) => default ∅ (sheet "Summary" wb)
  | _ => ∅
  end.

(** A ledger whose workbook, if there is one, has no two sheets of the same
    title, as every workbook written by a spreadsheet application. *)
Definition titles_unique (files : ledger_files) : Prop :=
  ∀ wb, lf_excel files = Some (Xlsx wb) → NoDup wb.*1.

(** The first row of a sheet holds the summary header. *)
Definition has_summary_header (ws : worksheet) : Prop :=
  ∀ i header, summary_headers !! i = Some header →
              ws !! (1%nat, S i) = Some (CellStr header).


(** Writing a row, from any first column. *)
Definition write_cells (row : nat) (cells : list (nat * cell_value))
    (ws : worksheet) : worksheet :=
  foldl (λ ws cell, <[(row, cell.1) := cell.2]> ws) ws cells.

End ledger_rules.

Module aggregator_rules.

Import benchmark_orchestrator.

(** The evaluations of one style, in input order. *)
Definition evaluations_of (style : string) (acrue_results : list acrue_result)
  : list acrue_result :=
  filter (λ result, ar_style result = style) acrue_results.

(** The ordinal of a letter grade as the specification gives it:
    A+ 5, A 4, B 3, C 2, F 1 (and 1 for what is no letter grade). *)
Definition grade_ordinal (grade : string) : Q :=
  if decide (grade = "A+") then 5
  else if decide (grade = "A") then 4
  else if decide (grade = "B") then 3
  else if decide (grade = "C") then 2
  else 1.

(** The breakpoints of the specification, best grade first. *)
Definition ordinal_breakpoints : list (Q * string) :=
  [(9 # 2, "A+"); (7 # 2, "A"); (5 # 2, "B"); (3 # 2, "C")].

(** The letter of an average ordinal: the first breakpoint it reaches,
    else F. *)
Definition ordinal_letter (average : Q) : string :=
  match List.find (λ b, Qle_bool b.1 average) ordinal_breakpoints with
  | Some b => b.2
  | None => "F"
  end.

(** [avg_grade] as the specification describes it, from the evaluations of
    one style. *)
Definition spec_avg_grade (evaluations : list acrue_result) : string :=
  ordinal_letter
    (py_mean ((λ result, grade_ordinal (it_grade (read_item result)))
              <$> evaluations)).

End aggregator_rules.

Module synthesizer_rules.

Import benchmark_orchestrator.

(** Forgetting the final rank of an entry. *)
Definition unrank (e : synthesis_entry) : scored_style :=
  {| ss_style := se_style e; ss_gemini_rank := se_gemini_rank e;
     ss_opus_rank := se_opus_rank e; ss_final_score := se_final_score e |}.


(** The final score the loop computes for a declared style. *)
Definition final_score_of (spec : run_spec)
    (gemini_rankings opus_rankings : list judge_ranking) (style : string) : Q :=
  ss_final_score
    (score_style (rs_feasibility_weight spec) (rs_preference_weight spec)
       (rank_lookup gemini_rankings) (rank_lookup opus_rankings) style).

End synthesizer_rules.

Module comparator_rules.

Import compare_runs.


Definition has_status (status : string) (d : style_delta) : Prop :=
  sd_status d = status.

#[export] Instance has_status_dec status d : Decision (has_status status d).
Proof. unfold has_status. apply _. Defined.




End comparator_rules.

(* ===================================================================== *)
(** * Properties *)
(* ===================================================================== *)

Example scorer_perfect :
  run_acrue_v3.sm_weighted_total
    (run_acrue_v3.calculate_v3_summary
       (run_acrue_v3.calculate_v3_scores (judge_reports 5))) == 25.
Proof. vm_compute. reflexivity. Qed.

(** ** Rounding *)

Section rounding.

Lemma round_half_even_floor (x : Q) :
  (Qfloor x ≤ round_half_even x ≤ Qfloor x + 1)%Z.
Proof.
  unfold round_half_even.
  destruct (Qcompare _ _); [destruct (Z.even _) | |]; lia.
Qed.

Lemma round_half_even_ge (x : Q) (k : Z) :
  inject_Z k <= x → (k ≤ round_half_even x)%Z.
Proof.
  intros Hk. apply Qfloor_resp_le in Hk. rewrite Qfloor_Z in Hk.
  pose proof (round_half_even_floor x). lia.
Qed.

Lemma round_half_even_le (x : Q) (k : Z) :
  x <= inject_Z k → (round_half_even x ≤ k)%Z.
Proof.
  intros Hk.
  pose proof (Qfloor_resp_le _ _ Hk) as Hf. rewrite Qfloor_Z in Hf.
  destruct (Z.eq_dec (Qfloor x) k) as [Heq | Hne].
  - unfold round_half_even. rewrite Heq.
    destruct (Qcompare_spec (x - inject_Z k) (1 # 2)); [lra | lia | lra].
  - pose proof (round_half_even_floor x). lia.
Qed.

Lemma py_round_bounds (x : Q) (ndigits : nat) (lo hi : Z) :
  inject_Z lo <= x * inject_Z (Zpos (pow10 ndigits)) <= inject_Z hi →
  Qmake lo (pow10 ndigits) <= py_round x ndigits <= Qmake hi (pow10 ndigits).
Proof.
  intros [Hlo Hhi].
  apply round_half_even_ge in Hlo. apply round_half_even_le in Hhi.
  unfold py_round, Qle; simpl. split; nia.
Qed.

(** Rounding to cents keeps a value inside an interval whose ends are
    whole cents. *)
Lemma py_round_cents (x : Q) (hi : Z) :
  0 <= x <= Qmake hi 100 → 0 <= py_round x 2 <= Qmake hi 100.
Proof.
  intros [Hlo Hhi].
  destruct (py_round_bounds x 2 0 hi) as [H1 H2].
  - change (Zpos (pow10 2)) with 100%Z.
    unfold Qle in *; simpl in *. split; lia.
  - change (pow10 2) with 100%positive in *. split; [| exact H2].
    unfold Qle in *; simpl in *. lia.
Qed.

Lemma py_round_tenths (x : Q) (hi : Z) :
  0 <= x <= Qmake hi 10 → 0 <= py_round x 1 <= Qmake hi 10.
Proof.
  intros [Hlo Hhi].
  destruct (py_round_bounds x 1 0 hi) as [H1 H2].
  - change (Zpos (pow10 1)) with 10%Z.
    unfold Qle in *; simpl in *. split; lia.
  - change (pow10 1) with 10%positive in *. split; [| exact H2].
    unfold Qle in *; simpl in *. lia.
Qed.

End rounding.

(** ** The stable sort *)

Section stable_sort_facts.

Context {A : Type} (before : A → A → bool).

Lemma stable_insert_perm (x : A) (l : list A) :
  stable_insert before x l ≡ₚ x :: l.
Proof.
  induction l as [| y l IH]; cbn; [done |].
  destruct (before y x); [| done]. rewrite IH. apply Permutation_swap.
Qed.

Lemma stable_sort_perm (l : list A) : stable_sort before l ≡ₚ l.
Proof.
  induction l as [| x l IH]; cbn; [done |].
  fold (stable_sort before l). by rewrite stable_insert_perm, IH.
Qed.

Lemma stable_sort_length (l : list A) : length (stable_sort before l) = length l.
Proof. by rewrite stable_sort_perm. Qed.

(** Elements of a class [P] that [before] never orders keep their input
    order. *)
Lemma stable_insert_filter (P : A → Prop) `{!∀ x, Decision (P x)} x l :
  (∀ y, P x → P y → before y x = false) →
  filter P (stable_insert before x l) = filter P (x :: l).
Proof.
  intros Htied. induction l as [| y l IH]; cbn; [done |].
  destruct (before y x) eqn:Hyx; [| done].
  rewrite (filter_cons _ y), IH, !filter_cons.
  destruct (decide (P x)) as [Hx |], (decide (P y)) as [Hy |]; try done.
  by rewrite Htied in Hyx.
Qed.

Lemma stable_sort_filter (P : A → Prop) `{!∀ x, Decision (P x)} l :
  (∀ x y, P x → P y → before y x = false) →
  filter P (stable_sort before l) = filter P l.
Proof.
  intros Htied. induction l as [| x l IH]; cbn; [done |].
  fold (stable_sort before l).
  rewrite stable_insert_filter by eauto. by rewrite !filter_cons, IH.
Qed.

(** [le] is what remains between two elements once [before] has been
    ruled out one way. *)
Context (le : A → A → Prop).
Hypothesis le_trans : ∀ x y z, le x y → le y z → le x z.
Hypothesis before_le : ∀ x y, before x y = true → le x y.
Hypothesis not_before_le : ∀ x y, before x y = false → le y x.

Lemma stable_insert_sorted x l :
  StronglySorted le l → StronglySorted le (stable_insert before x l).
Proof.
  induction 1 as [| y l Hl IH Hy]; cbn; [repeat constructor |].
  destruct (before y x) eqn:Hyx.
  - constructor; [exact IH |].
    rewrite stable_insert_perm. constructor; [by apply before_le | exact Hy].
  - apply not_before_le in Hyx.
    constructor; [by constructor |].
    constructor; [exact Hyx |].
    eapply Forall_impl; [exact Hy |]. intros z Hz. by eapply le_trans.
Qed.

Lemma stable_sort_sorted l : StronglySorted le (stable_sort before l).
Proof.
  induction l as [| x l IH]; cbn; [constructor |].
  by apply stable_insert_sorted.
Qed.

End stable_sort_facts.

(** ** Order of occurrence in a list *)

Section occurrence_order.

Context {A : Type}.
Implicit Types l : list A.

(** [[a; b] `sublist_of` l]: some [a] of [l] comes before some [b]. *)
Lemma sublist_pair_lookup l a b :
  [a; b] `sublist_of` l ↔
  ∃ i j, (i < j)%nat ∧ l !! i = Some a ∧ l !! j = Some b.
Proof.
  split.
  - intros (k1 & k2 & -> & Hb)%sublist_cons_l.
    apply sublist_cons_l in Hb as (k3 & k4 & -> & _).
    exists (length k1), (length k1 + S (length k3))%nat.
    split; [lia |]. split.
    + by apply list_lookup_middle.
    + rewrite lookup_app_r by lia.
      replace (length k1 + S (length k3) - length k1)%nat
        with (S (length k3)) by lia.
      cbn. by apply list_lookup_middle.
  - intros (i & j & Hij & Ha & Hb).
    rewrite <- (take_drop_middle l i a Ha).
    apply sublist_inserts_l, sublist_skip, singleton_sublist_l.
    apply list_elem_of_lookup. exists (j - S i)%nat.
    rewrite lookup_drop. by replace (S i + (j - S i))%nat with j by lia.
Qed.

Lemma sublist_filter_mono (P : A → Prop) `{!∀ x, Decision (P x)} l1 l2 :
  l1 `sublist_of` l2 → filter P l1 `sublist_of` filter P l2.
Proof.
  induction 1 as [| x l1 l2 _ IH | x l1 l2 _ IH]; [done | |];
    rewrite ?filter_cons; destruct (decide (P x));
    auto using sublist_skip, sublist_cons.
Qed.

(** Where no element occurs twice (under [f]), the place of an element
    is determined by its image. *)
Lemma NoDup_fmap_lookup_inj {B} (f : A → B) l i j x y :
  NoDup (f <$> l) → l !! i = Some x → l !! j = Some y → f x = f y → i = j.
Proof.
  intros Hnd Hi Hj Hxy.
  apply (NoDup_lookup (f <$> l) i j (f x) Hnd).
  - by rewrite list_lookup_fmap, Hi.
  - by rewrite list_lookup_fmap, Hj, Hxy.
Qed.

Lemma StronglySorted_lookup_lt (R : relation A) l i j x y :
  StronglySorted R l → (i < j)%nat → l !! i = Some x → l !! j = Some y → R x y.
Proof.
  intros Hl. revert i j. induction Hl as [| z l Hl IH Hz]; intros i j Hij Hi Hj;
    [done |].
  destruct j as [| j]; [lia |]. destruct i as [| i]; cbn in *.
  - injection Hi as ->. eapply Forall_forall; [exact Hz |].
    by eapply list_elem_of_lookup_2.
  - apply (IH i j); [lia | done ..].
Qed.

Lemma filter_fmap {B} (f : B → A) (P : A → Prop) `{!∀ x, Decision (P x)}
    (l : list B) :
  filter P (f <$> l) = f <$> filter (P ∘ f) l.
Proof.
  induction l as [| x l IH]; [done |]. cbn [fmap list_fmap].
  rewrite !filter_cons, IH. unfold compose. by destruct (decide (P (f x))).
Qed.

End occurrence_order.

(** ** The scorer *)

Section scorer.

Import run_acrue_v3.

Implicit Types dimensions_data : gmap string dim_data.

Lemma calculate_v3_scores_weighted dimensions_data :
  (λ s, ds_weighted_score s.2) <$> calculate_v3_scores dimensions_data
  = (λ d, py_round (reported_score dimensions_data d.1 * d.2) 2) <$> WEIGHTS.
Proof. reflexivity. Qed.

Lemma weighted_score_bounds dimensions_data (dimension : string) (hi : Z) (w : Q) :
  0 <= reported_score dimensions_data dimension <= 5 →
  0 <= w → 5 * w == Qmake hi 100 →
  0 <= py_round (reported_score dimensions_data dimension * w) 2 <= Qmake hi 100.
Proof.
  intros [Hlo Hhi] Hw Hcap. apply py_round_cents. rewrite <- Hcap. split; nra.
Qed.

(** C1, as the code has it: nothing is clamped. Each weighted score is the
    score the judge reported (0 when absent) times the dimension's weight,
    rounded to cents, and the total is their sum; the bounds
    [0 <= weighted_total <= 25] and [0 <= percentage <= 100] hold whenever
    the judge kept every dimension score inside [0,5]. *)
Theorem C1_scorer_bounds_when_judge_in_range dimensions_data :
  (∀ d, d ∈ WEIGHTS → 0 <= reported_score dimensions_data d.1 <= 5) →
  let scores := calculate_v3_scores dimensions_data in
  let summary := calculate_v3_summary scores in
  (λ s, ds_weighted_score s.2) <$> scores
    = (λ d, py_round (reported_score dimensions_data d.1 * d.2) 2) <$> WEIGHTS
  ∧ 0 <= summary_weighted_total scores <= 25
  ∧ 0 <= summary_percentage scores <= 100
  ∧ 0 <= sm_weighted_total summary <= 25
  ∧ 0 <= sm_percentage summary <= 100.
Proof.
  intros Hrange scores summary.
  split; [reflexivity |].
  assert (0 <= summary_weighted_total scores <= 25) as Htotal.
  { unfold summary_weighted_total, scores.
    rewrite calculate_v3_scores_weighted.
    pose proof (weighted_score_bounds dimensions_data "accuracy" 500 1
                  (Hrange ("accuracy", 1) ltac:(unfold WEIGHTS; repeat constructor))
                  ltac:(lra) ltac:(reflexivity)) as H1.
    pose proof (weighted_score_bounds dimensions_data "completeness" 500 1
                  (Hrange ("completeness", 1) ltac:(unfold WEIGHTS; repeat constructor))
                  ltac:(lra) ltac:(reflexivity)) as H2.
    pose proof (weighted_score_bounds dimensions_data "relevance" 250 (1 # 2)
                  (Hrange ("relevance", 1 # 2) ltac:(unfold WEIGHTS; repeat constructor))
                  ltac:(lra) ltac:(reflexivity)) as H3.
    pose proof (weighted_score_bounds dimensions_data "usefulness" 250 (1 # 2)
                  (Hrange ("usefulness", 1 # 2) ltac:(unfold WEIGHTS; repeat constructor))
                  ltac:(lra) ltac:(reflexivity)) as H4.
    pose proof (weighted_score_bounds dimensions_data "exceptional" 1000 2
                  (Hrange ("exceptional", 2) ltac:(unfold WEIGHTS; repeat constructor))
                  ltac:(lra) ltac:(reflexivity)) as H5.
    unfold py_sum, WEIGHTS; cbn [fmap list_fmap foldl fst snd].
    lra. }
  assert (0 <= summary_percentage scores <= 100) as Hpct.
  { assert (summary_percentage scores == summary_weighted_total scores * 4) as Heq
      by (unfold summary_percentage, MAX_SCORE; field).
    lra. }
  split; [exact Htotal |]. split; [exact Hpct |]. split.
  - change (sm_weighted_total summary)
      with (py_round (summary_weighted_total scores) 2).
    destruct (py_round_cents (summary_weighted_total scores) 2500); lra.
  - change (sm_percentage summary)
      with (py_round (summary_percentage scores) 1).
    destruct (py_round_tenths (summary_percentage scores) 1000); lra.
Qed.

Lemma C1_scorer_bounds_when_judge_in_range_witness :
  0 <= sm_percentage (calculate_v3_summary (calculate_v3_scores (judge_reports 4))) <= 100.
Proof.
  apply (C1_scorer_bounds_when_judge_in_range (judge_reports 4)).
  intros d Hd. unfold WEIGHTS in Hd.
  repeat (apply elem_of_cons in Hd as [-> | Hd]); try (vm_compute; split; discriminate).
  by apply elem_of_nil in Hd.
Defined.

(** C1 as stated fails: a judge that reports 10 on every dimension gets a
    weighted total of 50 and a percentage of 200; the score is stored as
    reported. *)
Lemma C1_unclamped_score_exceeds_bounds :
  let scores := calculate_v3_scores (judge_reports 10) in
  let summary := calculate_v3_summary scores in
  Forall (λ s, ds_dimension_score s.2 == 10) scores
  ∧ sm_weighted_total summary == 50
  ∧ sm_percentage summary == 200
  ∧ ¬ (sm_weighted_total summary <= 25)
  ∧ ¬ (sm_percentage summary <= 100).
Proof.
  vm_compute. repeat split; try (intros H; by apply H).
  repeat constructor.
Qed.

End scorer.

(** ** The regression comparator *)

Section comparator.

Import compare_runs comparator_rules.

Lemma Qlt_bool_iff (x y : Q) : Qlt_bool x y = true ↔ x < y.
Proof.
  unfold Qlt_bool. rewrite negb_true_iff, <- not_true_iff_false, Qle_bool_iff.
  split; [apply Qnot_le_lt | apply Qlt_not_le].
Qed.

Lemma Qlt_bool_false_iff (x y : Q) : Qlt_bool x y = false ↔ ¬ x < y.
Proof. rewrite <- Qlt_bool_iff. symmetry. apply not_true_iff_false. Qed.















End comparator.

(** ** The dual-judge synthesizer *)

Section synthesizer.

Import benchmark_orchestrator synthesizer_rules.

Implicit Types (spec : run_spec) (styles : list string).
Implicit Types (gemini_rankings opus_rankings : list judge_ranking).

Lemma rank_lookup_snoc rankings r :
  rank_lookup (rankings ++ [r]) = <[jr_style r := jr_rank r]> (rank_lookup rankings).
Proof. unfold rank_lookup. by rewrite foldl_snoc. Qed.


Lemma rank_lookup_Some rankings style rank :
  rank_lookup rankings !! style = Some rank →
  ∃ r, r ∈ rankings ∧ jr_style r = style ∧ jr_rank r = rank.
Proof.
  induction rankings as [| r rankings IH] using rev_ind.
  - cbn. by rewrite lookup_empty.
  - rewrite rank_lookup_snoc, lookup_insert. case_decide.
    + intros [= <-]. exists r. split; [| done].
      apply elem_of_app. right. by left.
    + intros (r' & Hin & Hr')%IH. exists r'. split; [| done].
      apply elem_of_app. by left.
Qed.

Lemma unrank_assign_final_ranks final_scores :
  unrank <$> assign_final_ranks final_scores = final_scores.
Proof.
  unfold assign_final_ranks. rewrite fmap_imap.
  rewrite <- (list_fmap_id final_scores) at 2. rewrite <- imap_const.
  apply imap_ext. by intros i [].
Qed.

Lemma rank_assign_final_ranks final_scores :
  se_rank <$> assign_final_ranks final_scores
  = Z.of_nat <$> seq 1 (length final_scores).
Proof.
  unfold assign_final_ranks. rewrite fmap_imap.
  rewrite <- (imap_seq final_scores Z.of_nat 1). by apply imap_ext.
Qed.

Lemma sort_final_scores_sorted final_scores :
  StronglySorted (λ a b, ss_final_score a <= ss_final_score b)
                 (sort_final_scores final_scores).
Proof.
  apply stable_sort_sorted.
  - intros x y z. apply Qle_trans.
  - intros x y Hxy%Qlt_bool_iff. by apply Qlt_le_weak.
  - intros x y Hxy%Qlt_bool_false_iff. by apply Qnot_lt_le.
Qed.

Lemma sort_final_scores_stable (v : Q) final_scores :
  filter (λ s, ss_final_score s == v) (sort_final_scores final_scores)
  = filter (λ s, ss_final_score s == v) final_scores.
Proof.
  apply (stable_sort_filter _ (λ s, ss_final_score s == v)).
  intros x y Hx Hy. apply Qlt_bool_false_iff. rewrite Hx, Hy. apply Qlt_irrefl.
Qed.

Lemma synthesize_results_unfold spec gemini_rankings opus_rankings styles :
  rs_styles spec = Some styles →
  let scored :=
    score_style (rs_feasibility_weight spec) (rs_preference_weight spec)
      (rank_lookup gemini_rankings) (rank_lookup opus_rankings) <$> styles in
  let ranked := assign_final_ranks (sort_final_scores scored) in
  synthesize_results spec gemini_rankings opus_rankings
  = match ranked with
    | [] => RaisedIndexError
    | first :: _ =>
        Returned {| syn_winner := se_style first;
                    syn_rankings := ranked;
                    syn_feasibility_weight := rs_feasibility_weight spec;
                    syn_preference_weight := rs_preference_weight spec |}
    end.
Proof. intros Hstyles. unfold synthesize_results. by rewrite Hstyles. Qed.

Lemma ranked_length final_scores :
  length (assign_final_ranks (sort_final_scores final_scores))
  = length final_scores.
Proof.
  unfold assign_final_ranks, sort_final_scores.
  by rewrite length_imap, stable_sort_length.
Qed.

(** C9: with a non-empty styles list the synthesis returns; its rankings
    hold one entry per declared style, ranked 1..N, a lower rank never
    having a greater final score, styles of equal final score in the order
    of the styles list, and the winner is the style at rank 1. With an
    empty styles list selecting the winner raises IndexError. *)
Theorem C9_synthesis_rankings spec gemini_rankings opus_rankings styles :
  rs_styles spec = Some styles →
  (styles = [] →
     synthesize_results spec gemini_rankings opus_rankings = RaisedIndexError)
  ∧ (styles ≠ [] →
     ∃ syn,
       synthesize_results spec gemini_rankings opus_rankings = Returned syn
       ∧ se_style <$> syn_rankings syn ≡ₚ styles
       ∧ se_rank <$> syn_rankings syn = Z.of_nat <$> seq 1 (length styles)
       ∧ (∀ e1 e2, e1 ∈ syn_rankings syn → e2 ∈ syn_rankings syn →
            (se_rank e1 < se_rank e2)%Z → se_final_score e1 <= se_final_score e2)
       ∧ (∀ v : Q,
            se_style <$> filter (λ e, se_final_score e == v) (syn_rankings syn)
            = filter (λ style,
                        final_score_of spec gemini_rankings opus_rankings style == v)
                     styles)
       ∧ (∃ first, syn_rankings syn !! 0%nat = Some first
            ∧ se_rank first = 1%Z ∧ syn_winner syn = se_style first)).
Proof.
  intros Hstyles.
  pose proof (synthesize_results_unfold spec gemini_rankings opus_rankings
                styles Hstyles) as Hsyn. cbn zeta in Hsyn.
  set (score := score_style _ _ _ _) in Hsyn.
  set (scored := score <$> styles) in Hsyn.
  set (ranked := assign_final_ranks (sort_final_scores scored)) in Hsyn.
  split.
  - intros ->. by rewrite Hsyn.
  - intros Hne.
    assert (length ranked = length styles) as Hlen
      by (unfold ranked, scored; by rewrite ranked_length, length_fmap).
    destruct ranked as [| first rest] eqn:Hranked;
      [by destruct styles |].
    rewrite <- Hranked in *. eexists. split; [exact Hsyn |].
    cbn [syn_rankings syn_winner].
    assert (unrank <$> ranked = sort_final_scores scored) as Hunrank
      by apply unrank_assign_final_ranks.
    assert (∀ l : list string, ss_style ∘ score <$> l = l) as Hid.
    { intros l. rewrite <- (list_fmap_id l) at 2. by apply list_fmap_ext. }
    repeat split.
    + transitivity (ss_style <$> (unrank <$> ranked)).
      { by rewrite <- list_fmap_compose. }
      rewrite Hunrank. unfold sort_final_scores. rewrite stable_sort_perm.
      unfold scored. by rewrite <- list_fmap_compose, Hid.
    + unfold ranked. rewrite rank_assign_final_ranks. f_equal. f_equal.
      unfold sort_final_scores, scored.
      by rewrite stable_sort_length, length_fmap.
    + intros e1 e2 (i1 & s1 & -> & H1)%elem_of_lookup_imap
                   (i2 & s2 & -> & H2)%elem_of_lookup_imap Hlt.
      cbn in *.
      apply (StronglySorted_lookup_lt
               (λ a b, ss_final_score a <= ss_final_score b)
               (sort_final_scores scored) i1 i2 s1 s2);
        [apply sort_final_scores_sorted | lia | done ..].
    + intros v.
      transitivity
        (ss_style <$> filter (λ s, ss_final_score s == v) (unrank <$> ranked)).
      { rewrite filter_fmap, <- list_fmap_compose. done. }
      rewrite Hunrank, sort_final_scores_stable. unfold scored.
      by rewrite filter_fmap, <- list_fmap_compose, Hid.
    + exists first. rewrite Hranked. split; [done |]. split; [| done].
      unfold ranked, assign_final_ranks in Hranked.
      destruct (sort_final_scores scored); [done |].
      cbn in Hranked. by injection Hranked as <- _.
Qed.

Lemma C9_synthesis_rankings_witness :
  ∃ syn,
    synthesize_results (sample_spec ["Anime"; "Pop Art"; "Storybook"] (1 # 2) (1 # 2))
      (judge_ranks [("Anime", 1%Z); ("Pop Art", 2%Z); ("Storybook", 3%Z)])
      (judge_ranks [("Anime", 1%Z); ("Pop Art", 2%Z); ("Storybook", 3%Z)])
    = Returned syn
    ∧ se_rank <$> syn_rankings syn = [1%Z; 2%Z; 3%Z]
    ∧ ∃ first, syn_rankings syn !! 0%nat = Some first
               ∧ se_rank first = 1%Z ∧ syn_winner syn = se_style first.
Proof.
  destruct (C9_synthesis_rankings
              (sample_spec ["Anime"; "Pop Art"; "Storybook"] (1 # 2) (1 # 2))
              (judge_ranks [("Anime", 1%Z); ("Pop Art", 2%Z); ("Storybook", 3%Z)])
              (judge_ranks [("Anime", 1%Z); ("Pop Art", 2%Z); ("Storybook", 3%Z)])
              ["Anime"; "Pop Art"; "Storybook"] eq_refl) as [_ Hsyn].
  destruct (Hsyn ltac:(discriminate)) as (syn & Esyn & _ & Hranks & _ & _ & Hwin).
  exists syn. split; [exact Esyn |]. split; [exact Hranks | exact Hwin].
Defined.

(** The synthesizer example of the specification: identical ranks 1, 2, 3
    and weights 0.5, 0.5 give final scores 1.0, 2.0, 3.0 and the first
    style as the winner. *)
Example synthesize_results_equal_ranks :
  ∃ syn,
    synthesize_results (sample_spec ["Anime"; "Pop Art"; "Storybook"] (1 # 2) (1 # 2))
      (judge_ranks [("Anime", 1%Z); ("Pop Art", 2%Z); ("Storybook", 3%Z)])
      (judge_ranks [("Anime", 1%Z); ("Pop Art", 2%Z); ("Storybook", 3%Z)])
    = Returned syn
    ∧ syn_winner syn = "Anime"
    ∧ se_style <$> syn_rankings syn = ["Anime"; "Pop Art"; "Storybook"]
    ∧ Forall2 Qeq (se_final_score <$> syn_rankings syn) [1; 2; 3].
Proof.
  eexists. split; [vm_compute; reflexivity |].
  repeat split. cbn. repeat constructor.
Qed.



End synthesizer.

(** ** Grouping in insertion order *)

Section grouping.

Context {V : Type}.
Implicit Types (groups : list (string * list V)) (k : string) (v : V).

Lemma group_append_keys k v groups :
  (group_append k v groups).*1
  = if decide (k ∈ groups.*1) then groups.*1 else groups.*1 ++ [k].
Proof.
  induction groups as [| [k' vs] groups IH]; cbn; [done |].
  destruct (decide (k = k')) as [-> | Hne]; cbn.
  - rewrite decide_True; [done | left].
  - rewrite IH. destruct (decide (k ∈ groups.*1)) as [Hin | Hnin].
    + rewrite decide_True; [done | by right].
    + rewrite decide_False; [done |].
      intros [? | ?]%elem_of_cons; done.
Qed.

Lemma group_append_keys_prefix k v groups :
  ∃ extra, (group_append k v groups).*1 = groups.*1 ++ extra.
Proof.
  rewrite group_append_keys. destruct (decide _); [exists [] | exists [k]];
    by rewrite ?app_nil_r.
Qed.

Lemma group_append_key_in k v groups : k ∈ (group_append k v groups).*1.
Proof.
  rewrite group_append_keys. destruct (decide _); [done |].
  apply elem_of_app. right. left.
Qed.

Lemma group_append_NoDup k v groups :
  NoDup groups.*1 → NoDup (group_append k v groups).*1.
Proof.
  intros Hnd. rewrite group_append_keys. destruct (decide _); [done |].
  apply NoDup_app. split; [done |]. split; [| apply NoDup_singleton].
  intros x Hx ->%list_elem_of_singleton. done.
Qed.

(** A group after the append is an old group of another key, or the group
    of [k] with [v] added at its end. *)
Lemma group_append_elem k v groups s vs :
  NoDup groups.*1 →
  (s, vs) ∈ group_append k v groups →
  (s ≠ k ∧ (s, vs) ∈ groups)
  ∨ (s = k ∧ ∃ vs0, vs = vs0 ++ [v]
                    ∧ ((k, vs0) ∈ groups ∨ (vs0 = [] ∧ k ∉ groups.*1))).
Proof.
  induction groups as [| [k' vs'] groups IH]; cbn; intros Hnd.
  - intros [= -> ->]%list_elem_of_singleton. right. split; [done |].
    exists []. split; [done |]. right. split; [done | apply not_elem_of_nil].
  - apply NoDup_cons in Hnd as [Hk' Hnd].
    destruct (decide (k = k')) as [-> | Hne].
    + intros [[= -> ->] | Hin]%elem_of_cons.
      * right. split; [done |]. exists vs'. split; [done |]. left. left.
      * left. split; [| by right]. intros ->. apply Hk'.
        apply list_elem_of_fmap. by exists (k', vs).
    + intros [[= -> ->] | Hin]%elem_of_cons.
      * left. split; [congruence | left].
      * destruct (IH Hnd Hin) as [[Hs Hold] | (-> & vs0 & -> & Hvs0)].
        -- left. split; [done | by right].
        -- right. split; [done |]. exists vs0. split; [done |].
           destruct Hvs0 as [Hold | [-> Hnew]]; [left; by right | right].
           split; [done |]. intros [? | ?]%elem_of_cons; done.
Qed.

End grouping.

(** ** The rank aggregator *)

Section aggregator.

Import benchmark_orchestrator aggregator_rules.

Implicit Types (acrue_results : list acrue_result) (style : string).

Lemma group_by_style_snoc acrue_results result :
  group_by_style (acrue_results ++ [result])
  = group_append (ar_style result) (read_item result) (group_by_style acrue_results).
Proof. unfold group_by_style. by rewrite foldl_snoc. Qed.

Lemma group_by_style_NoDup acrue_results :
  NoDup (group_by_style acrue_results).*1.
Proof.
  induction acrue_results as [| result acrue_results IH] using rev_ind.
  - constructor.
  - rewrite group_by_style_snoc. by apply group_append_NoDup.
Qed.

(** The groups are the styles that occur. *)
Lemma group_by_style_keys acrue_results style :
  style ∈ (group_by_style acrue_results).*1 ↔ style ∈ ar_style <$> acrue_results.
Proof.
  induction acrue_results as [| result acrue_results IH] using rev_ind; [done |].
  rewrite group_by_style_snoc, group_append_keys, fmap_app, elem_of_app.
  cbn. rewrite list_elem_of_singleton, <- IH.
  destruct (decide _) as [Hin | Hnin].
  - split; [by left | intros [? | ->]; done].
  - by rewrite elem_of_app, list_elem_of_singleton.
Qed.

(** Later evaluations only add groups at the end. *)
Lemma group_by_style_prefix acrue_results more :
  ∃ extra, (group_by_style (acrue_results ++ more)).*1
           = (group_by_style acrue_results).*1 ++ extra.
Proof.
  induction more as [| result more IH] using rev_ind.
  - exists []. by rewrite !app_nil_r.
  - destruct IH as [extra IH]. rewrite app_assoc, group_by_style_snoc.
    destruct (group_append_keys_prefix (ar_style result) (read_item result)
                (group_by_style (acrue_results ++ more))) as [extra' ->].
    exists (extra ++ extra'). by rewrite IH, app_assoc.
Qed.

Lemma evaluations_of_absent acrue_results style :
  style ∉ ar_style <$> acrue_results → evaluations_of style acrue_results = [].
Proof.
  unfold evaluations_of.
  induction acrue_results as [| result acrue_results IH]; [done |].
  rewrite fmap_cons. intros [Hne Hrest]%not_elem_of_cons.
  rewrite filter_cons, decide_False by done. by apply IH.
Qed.

(** A group holds the evaluations of its style, in input order. *)
Lemma group_by_style_content acrue_results style scores :
  (style, scores) ∈ group_by_style acrue_results →
  scores = read_item <$> evaluations_of style acrue_results.
Proof.
  revert style scores.
  induction acrue_results as [| result acrue_results IH] using rev_ind;
    intros style scores; [by intros ?%elem_of_nil |].
  rewrite group_by_style_snoc. unfold evaluations_of.
  rewrite filter_app, fmap_app, filter_cons, filter_nil.
  intros [[Hne Hold] | (-> & scores0 & -> & Hscores0)]%group_append_elem;
    [| | apply group_by_style_NoDup].
  - rewrite decide_False by done. rewrite app_nil_r. by apply IH.
  - rewrite decide_True by done. f_equal.
    destruct Hscores0 as [Hold | [-> Hnew]]; [by apply IH |].
    rewrite group_by_style_keys in Hnew.
    apply evaluations_of_absent in Hnew. unfold evaluations_of in Hnew.
    by rewrite Hnew.
Qed.

(** The group of a style that is first evaluated before any evaluation of
    another comes before that other's group. *)
Lemma group_by_style_order pre first post style :
  style ∉ ar_style <$> (pre ++ [first]) →
  style ∈ ar_style <$> (pre ++ first :: post) →
  [ar_style first; style] `sublist_of` (group_by_style (pre ++ first :: post)).*1.
Proof.
  intros Hbefore Hoccurs.
  rewrite <- group_by_style_keys in Hbefore, Hoccurs.
  revert Hoccurs. rewrite (cons_middle first pre post), app_assoc.
  destruct (group_by_style_prefix (pre ++ [first]) post) as [extra ->].
  intros [Hin | Hin]%elem_of_app; [done |].
  apply (sublist_app [ar_style first] _ [style]);
    apply singleton_sublist_l; [| done].
  rewrite group_by_style_snoc. apply group_append_key_in.
Qed.

Lemma summarize_styles (groups : list (string * list item_scores)) :
  rd_style <$> (summarize <$> groups) = groups.*1.
Proof. rewrite <- list_fmap_compose. by apply list_fmap_ext. Qed.

Lemma sort_rankings_data_sorted rankings_data :
  StronglySorted (λ a b, rd_avg_score b <= rd_avg_score a)
                 (sort_rankings_data rankings_data).
Proof.
  apply stable_sort_sorted.
  - intros x y z Hxy Hyz. by apply Qle_trans with (rd_avg_score y).
  - intros x y Hxy%Qlt_bool_iff. by apply Qlt_le_weak.
  - intros x y Hxy%Qlt_bool_false_iff. by apply Qnot_lt_le.
Qed.

Lemma sort_rankings_data_stable (v : Q) rankings_data :
  filter (λ d, rd_avg_score d == v) (sort_rankings_data rankings_data)
  = filter (λ d, rd_avg_score d == v) rankings_data.
Proof.
  apply (stable_sort_filter _ (λ d, rd_avg_score d == v)).
  intros x y Hx Hy. apply Qlt_bool_false_iff. rewrite Hx, Hy. apply Qlt_irrefl.
Qed.

(** What an entry of the returned rankings is: the data at some place of
    the sorted list, with that place (from 1) as its rank. *)
Lemma ranking_entry gemini_model now acrue_results r :
  r ∈ fr_rankings (compute_feasibility_rankings gemini_model now acrue_results) →
  ∃ i data,
    sort_rankings_data (summarize <$> group_by_style acrue_results) !! i = Some data
    ∧ rk_rank r = Z.of_nat (S i) ∧ rk_style r = rd_style data
    ∧ rk_avg_score r = rd_avg_score data ∧ rk_avg_grade r = rd_avg_grade data
    ∧ rk_avg_percentage r = rd_avg_percentage data.
Proof.
  cbn. intros (i & data & -> & Hi)%elem_of_lookup_imap. by exists i, data.
Qed.

(** C5: the returned rankings carry the ranks 1..n, a better rank never has
    a smaller avg_score, and of two styles with the same avg_score the one
    that has an evaluation before every evaluation of the other gets the
    lower rank. *)
Theorem C5_ties_ranked_in_input_order gemini_model now acrue_results :
  let rankings :=
    fr_rankings (compute_feasibility_rankings gemini_model now acrue_results) in
  rk_rank <$> rankings = Z.of_nat <$> seq 1 (length rankings)
  ∧ (∀ r1 r2, r1 ∈ rankings → r2 ∈ rankings →
       (rk_rank r1 < rk_rank r2)%Z → rk_avg_score r2 <= rk_avg_score r1)
  ∧ (∀ r1 r2 pre first post,
       r1 ∈ rankings → r2 ∈ rankings →
       rk_avg_score r1 == rk_avg_score r2 →
       acrue_results = pre ++ first :: post →
       ar_style first = rk_style r1 →
       rk_style r2 ∉ ar_style <$> (pre ++ [first]) →
       (rk_rank r1 < rk_rank r2)%Z).
Proof.
  intros rankings.
  set (data := summarize <$> group_by_style acrue_results).
  assert (NoDup (rd_style <$> data)) as Hnd
    by (unfold data; rewrite summarize_styles; apply group_by_style_NoDup).
  assert (NoDup (rd_style <$> sort_rankings_data data)) as Hnd_sorted.
  { unfold sort_rankings_data. by rewrite stable_sort_perm. }
  split; [| split].
  - unfold rankings. cbn [compute_feasibility_rankings fr_rankings].
    unfold assign_ranks. rewrite length_imap, fmap_imap.
    rewrite <- (imap_seq _ Z.of_nat 1). by apply imap_ext.
  - intros r1 r2 (i1 & d1 & H1 & Hr1 & _ & -> & _)%ranking_entry
                 (i2 & d2 & H2 & Hr2 & _ & -> & _)%ranking_entry Hlt.
    apply (StronglySorted_lookup_lt
             (λ a b, rd_avg_score b <= rd_avg_score a)
             (sort_rankings_data data) i1 i2 d1 d2);
      [apply sort_rankings_data_sorted | lia | done ..].
  - intros r1 r2 pre first post
      (i1 & d1 & H1 & Hr1 & Hs1 & Ha1 & _)%ranking_entry
      (i2 & d2 & H2 & Hr2 & Hs2 & Ha2 & _)%ranking_entry
      Htie -> Hfirst Hbefore.
    fold data in H1, H2. rewrite Hr1, Hr2.
    assert (d1 ∈ data ∧ d2 ∈ data) as [Hd1 Hd2].
    { pose proof (list_elem_of_lookup_2 _ _ _ H1) as Hin1.
      pose proof (list_elem_of_lookup_2 _ _ _ H2) as Hin2.
      unfold sort_rankings_data in Hin1, Hin2.
      by rewrite stable_sort_perm in Hin1, Hin2. }
    (* the two groups, in the order they were first seen *)
    assert ([d1; d2] `sublist_of` data) as Hdata.
    { assert ([rk_style r1; rk_style r2] `sublist_of` rd_style <$> data) as Hkeys.
      { unfold data. rewrite summarize_styles, <- Hfirst.
        apply group_by_style_order; [done |].
        apply group_by_style_keys. rewrite <- summarize_styles. fold data.
        rewrite Hs2. by apply list_elem_of_fmap_2. }
      apply sublist_pair_lookup in Hkeys as (j1 & j2 & Hj & Hj1 & Hj2).
      rewrite list_lookup_fmap in Hj1, Hj2.
      destruct (data !! j1) as [d1' |] eqn:E1; [| done].
      destruct (data !! j2) as [d2' |] eqn:E2; [| done].
      cbn in Hj1, Hj2. injection Hj1 as Hj1. injection Hj2 as Hj2.
      apply list_elem_of_lookup in Hd1 as [k1 Hk1], Hd2 as [k2 Hk2].
      assert (k1 = j1) as ->
        by (apply (NoDup_fmap_lookup_inj rd_style data k1 j1 d1 d1'); congruence).
      assert (k2 = j2) as ->
        by (apply (NoDup_fmap_lookup_inj rd_style data k2 j2 d2 d2'); congruence).
      apply sublist_pair_lookup. by exists j1, j2. }
    (* the stable sort keeps them in that order *)
    assert ([d1; d2] `sublist_of` sort_rankings_data data) as Hsorted.
    { etransitivity;
        [| apply (sublist_filter (λ d, rd_avg_score d == rd_avg_score d1))].
      rewrite sort_rankings_data_stable.
      etransitivity;
        [| apply (sublist_filter_mono (λ d, rd_avg_score d == rd_avg_score d1)),
             Hdata].
      rewrite !filter_cons, filter_nil.
      rewrite decide_True by reflexivity.
      rewrite decide_True; [done |]. rewrite <- Ha1, <- Ha2. by symmetry. }
    apply sublist_pair_lookup in Hsorted as (j1 & j2 & Hj & Hj1 & Hj2).
    assert (i1 = j1) as ->
      by (by apply (NoDup_fmap_lookup_inj rd_style (sort_rankings_data data)
                      i1 j1 d1 d1)).
    assert (i2 = j2) as ->
      by (by apply (NoDup_fmap_lookup_inj rd_style (sort_rankings_data data)
                      i2 j2 d2 d2)).
    lia.
Qed.

Lemma C5_ties_ranked_in_input_order_witness :
  let rankings :=
    fr_rankings (compute_feasibility_rankings "gemini-2.0-flash"
                   "2026-02-04T10:00:00" tied_evaluations) in
  ∃ r1 r2, rankings !! 1%nat = Some r1 ∧ rankings !! 2%nat = Some r2
    ∧ rk_style r1 = "Pop Art" ∧ rk_style r2 = "Anime"
    ∧ rk_avg_score r1 == rk_avg_score r2
    ∧ (rk_rank r1 < rk_rank r2)%Z.
Proof.
  intros rankings. eexists _, _.
  split; [reflexivity |]. split; [reflexivity |].
  split; [reflexivity |]. split; [reflexivity |].
  split; [reflexivity |].
  eapply (proj2 (proj2 (C5_ties_ranked_in_input_order "gemini-2.0-flash"
                          "2026-02-04T10:00:00" tied_evaluations))
            _ _ [] (scored_evaluation "Pop Art" 20)).
  - apply (list_elem_of_lookup_2 _ 1%nat). reflexivity.
  - apply (list_elem_of_lookup_2 _ 2%nat). reflexivity.
  - reflexivity.
  - reflexivity.
  - reflexivity.
  - intros Hin. apply list_elem_of_singleton in Hin. discriminate Hin.
Defined.

Lemma grade_values_lookup (grade : string) :
  default 1 (grade_values !! grade) = grade_ordinal grade.
Proof.
  unfold grade_values, grade_ordinal.
  repeat (rewrite lookup_insert; case_decide; subst; [by repeat case_decide |]).
  rewrite lookup_empty. by repeat case_decide.
Qed.

Lemma avg_grade_of_letter (average : Q) :
  avg_grade_of average = ordinal_letter average.
Proof.
  unfold avg_grade_of, ordinal_letter. cbn.
  by repeat destruct (Qle_bool _ average).
Qed.

(** C6: the avg_grade of every returned ranking is the letter of the mean
    ordinal of its evaluations' grades (A+ 5, A 4, B 3, C 2, F 1; breakpoints
    4.5, 3.5, 2.5, 1.5), and not the grade of the average percentage: two
    evaluations at 90% (A+) and 60% (C) average to 75%, a B, while their
    avg_grade is A. *)
Theorem C6_avg_grade_is_mean_of_ordinals gemini_model now :
  (∀ acrue_results r,
      r ∈ fr_rankings (compute_feasibility_rankings gemini_model now acrue_results) →
      rk_avg_grade r = spec_avg_grade (evaluations_of (rk_style r) acrue_results))
  ∧ (∃ acrue_results r,
      r ∈ fr_rankings (compute_feasibility_rankings gemini_model now acrue_results)
      ∧ rk_avg_percentage r == 75
      ∧ run_acrue_v3.get_grade (rk_avg_percentage r) = "B"
      ∧ config.get_grade (rk_avg_percentage r) = "B"
      ∧ rk_avg_grade r = "A").
Proof.
  split.
  - intros acrue_results r (i & data & Hi & _ & Hstyle & _ & -> & _)%ranking_entry.
    apply list_elem_of_lookup_2 in Hi. unfold sort_rankings_data in Hi.
    rewrite stable_sort_perm in Hi.
    apply list_elem_of_fmap in Hi as ([style scores] & -> & Hgroup).
    rewrite Hstyle. cbn [summarize rd_style rd_avg_grade fst snd].
    apply group_by_style_content in Hgroup as ->.
    rewrite avg_grade_of_letter. unfold spec_avg_grade, avg_grade_val.
    rewrite <- list_fmap_compose. do 2 f_equal.
    apply list_fmap_ext. intros ? result _. cbn. apply grade_values_lookup.
  - exists uneven_evaluations. eexists. split; [left |].
    by vm_compute.
Qed.

Lemma C6_avg_grade_is_mean_of_ordinals_witness :
  let rankings :=
    fr_rankings (compute_feasibility_rankings "gemini-2.0-flash"
                   "2026-02-04T10:00:00" tied_evaluations) in
  ∃ r, rankings !! 0%nat = Some r
    ∧ rk_avg_grade r = spec_avg_grade (evaluations_of (rk_style r) tied_evaluations).
Proof.
  intros rankings. eexists. split; [reflexivity |].
  apply (proj1 (C6_avg_grade_is_mean_of_ordinals "gemini-2.0-flash"
                  "2026-02-04T10:00:00") tied_evaluations).
  apply (list_elem_of_lookup_2 _ 0%nat). reflexivity.
Defined.

End aggregator.

(** ** The run specification validator *)

Section validator.

Import benchmark_orchestrator validator_rules.

Implicit Types (env : environment) (spec : run_spec).

Lemma append_if_app (failed : bool) message (errors : list string) :
  append_if failed message errors = errors ++ (if failed then [message] else []).
Proof. destruct failed; cbn; by rewrite ?app_nil_r. Qed.

Lemma if_bool_decide {A} (b : bool) (P : Prop) `{!Decision P} (x y : A) :
  (b = true ↔ P) → (if b then x else y) = (if decide P then x else y).
Proof.
  intros Hb. destruct b, (decide P) as [HP | HP]; try done.
  - destruct HP. by apply Hb.
  - by apply Hb in HP.
Qed.

(** The [errors] list at the end of the checks. *)
Lemma validate_phase1_parsed env spec :
  env_run_spec env = SpecParsed spec →
  validate_phase1 env
  = match check_message env spec <$> failed_checks env spec with
    | [] => Returned spec
    | errors => RaisedValidationError (String.concat newline errors)
    end.
Proof.
  intros Hspec. unfold validate_phase1, load_run_spec. rewrite Hspec.
  cbn zeta. rewrite !append_if_app. cbn [app].
  unfold failed_checks, all_checks.
  rewrite !filter_cons, filter_nil.
  rewrite (if_bool_decide (bool_decide (length (default [] (rs_styles spec)) ≠ 3%nat))
             (¬ check_passes env spec V3))
    by (cbn; apply bool_decide_eq_true).
  rewrite (if_bool_decide (bool_decide (default 0%Z (rs_image_count spec) ≠ 3%Z))
             (¬ check_passes env spec V4)).
  2: { cbn. rewrite bool_decide_eq_true.
       destruct (rs_image_count spec); cbn; split; congruence. }
  rewrite (if_bool_decide
             (env_exists env (path_div SCRIPT_DIR (default "" (rs_output_dir spec))))
             (¬ check_passes env spec V5))
    by (cbn; by destruct (env_exists env _)).
  rewrite (if_bool_decide (bool_decide (default "" (env_gemini_api_key env) = ""))
             (¬ check_passes env spec V7)).
  2: { cbn. rewrite bool_decide_eq_true.
       destruct (env_gemini_api_key env) as [key |]; cbn.
       - split; [intros -> (? & [= <-] & ?); done |].
         intros Hkey. destruct (decide (key = "")); [done |].
         destruct Hkey. by exists key.
       - split; [intros _ (? & ? & ?); done | done]. }
  set (b6 := match rs_baseline_run_id spec with
             | Some baseline =>
                 if decide (baseline = "") then false
                 else negb (env_exists env (path_div config.RUNS_DIR baseline))
             | None => false
             end).
  assert (∀ errors : list string,
            match rs_baseline_run_id spec with
            | Some baseline_run_id =>
                if decide (baseline_run_id = "") then errors
                else
                  append_if
                    (negb (env_exists env
                             (path_div config.RUNS_DIR baseline_run_id)))
                    ("V6 FAIL: baseline_run_id directory not found: "
                     +:+ path_str (path_div config.RUNS_DIR baseline_run_id))
                    errors
            | None => errors
            end
            = errors ++ (if b6 then [check_message env spec V6] else []))
    as Hcode.
  { intros errors. unfold b6, check_message.
    destruct (rs_baseline_run_id spec) as [baseline |]; cbn [default];
      [destruct (decide (baseline = "")) |];
      by rewrite ?append_if_app, ?app_nil_r. }
  assert (b6 = true ↔ ¬ check_passes env spec V6) as Hb6.
  { unfold b6, check_passes.
    destruct (rs_baseline_run_id spec) as [baseline |].
    - destruct (decide (baseline = "")) as [-> | Hne].
      + split; [done |]. intros H. destruct H. by intros ? [= <-].
      + destruct (env_exists env _) eqn:E; cbn.
        * split; [done |]. intros H. destruct H. by intros ? [= <-].
        * split; [| done]. intros _ H.
          specialize (H baseline eq_refl Hne). congruence.
    - split; [done |]. intros H. destruct H. by intros ? [=]. }
  rewrite Hcode, (if_bool_decide b6 _ _ _ Hb6).
  clearbody b6. clear Hcode Hb6.
  destruct (decide (¬ check_passes env spec V3)),
           (decide (¬ check_passes env spec V4)),
           (decide (¬ check_passes env spec V5)),
           (decide (¬ check_passes env spec V6)),
           (decide (¬ check_passes env spec V7));
    reflexivity.
Qed.

(** C3: a specification file that is missing or is no JSON ends the
    validation at once with that single error. For a parsed specification
    every check is made: with no failed check the specification is
    returned, otherwise one ValidationError is raised whose message lists,
    one per line and in the order of the checks, every check that failed;
    a check is listed exactly when its requirement does not hold. *)
Theorem C3_validation_collects_all_failures env :
  (env_run_spec env = SpecMissing →
     validate_phase1 env
     = RaisedValidationError "V1 FAIL: run_spec.json does not exist")
  ∧ (∀ e, env_run_spec env = SpecInvalid e →
       validate_phase1 env
       = RaisedValidationError ("V2 FAIL: run_spec.json is not valid JSON: " +:+ e))
  ∧ (∀ spec, env_run_spec env = SpecParsed spec →
       (∀ c, c ∈ failed_checks env spec ↔ ¬ check_passes env spec c)
       ∧ (failed_checks env spec = [] → validate_phase1 env = Returned spec)
       ∧ (failed_checks env spec ≠ [] →
          validate_phase1 env
          = RaisedValidationError
              (String.concat newline
                 (check_message env spec <$> failed_checks env spec)))).
Proof.
  split; [| split].
  - intros Hspec. unfold validate_phase1. by rewrite Hspec.
  - intros e Hspec. unfold validate_phase1, load_run_spec. by rewrite Hspec.
  - intros spec Hspec. rewrite (validate_phase1_parsed env spec Hspec).
    split; [| split].
    + intros c. unfold failed_checks. rewrite list_elem_of_filter.
      split; [by intros [? _] |]. intros Hc. split; [done |].
      unfold all_checks. destruct c; set_solver.
    + by intros ->.
    + destruct (failed_checks env spec); [done | done].
Qed.

Lemma C3_validation_collects_all_failures_witness :
  let env := sample_environment (SpecParsed short_spec) None in
  failed_checks env short_spec = [V3; V4; V7]
  ∧ validate_phase1 env
    = RaisedValidationError
        (String.concat newline
           (check_message env short_spec <$> failed_checks env short_spec)).
Proof.
  intros env. split; [reflexivity |].
  apply (proj2 (proj2 (C3_validation_collects_all_failures env))
           short_spec eq_refl).
  discriminate.
Defined.

Example validate_phase1_lists_every_failure :
  validate_phase1 (sample_environment (SpecParsed short_spec) None)
  = RaisedValidationError
      ("V3 FAIL: styles must have exactly 3 items, got 2" +:+ newline
       +:+ "V4 FAIL: image_count must be 3, got 4" +:+ newline
       +:+ "V7 FAIL: GEMINI_API_KEY environment variable not set").
Proof. reflexivity. Qed.

Example validate_phase1_returns_the_spec :
  let spec := sample_spec ["Anime"; "Pop Art"; "Storybook"] (1 # 2) (1 # 2) in
  validate_phase1 (sample_environment (SpecParsed spec) (Some "key"))
  = Returned spec.
Proof. reflexivity. Qed.

End validator.

(** ** Worksheets and workbooks *)

Section worksheets.

Import benchmark_orchestrator ledger_rules.

Implicit Types (ws : worksheet) (wb : workbook) (row column : nat).

(** [max_row] is at least 1, bounds every row that has a cell, and is 1 or
    the row of a cell. *)
Lemma max_row_spec ws :
  (1 ≤ max_row ws)%nat
  ∧ (∀ row column, is_Some (ws !! (row, column)) → (row ≤ max_row ws)%nat)
  ∧ (max_row ws = 1%nat ∨ ∃ column, is_Some (ws !! (max_row ws, column))).
Proof.
  unfold max_row.
  apply (map_fold_weak_ind
           (λ (m : nat) (ws : worksheet),
              (1 ≤ m)%nat
              ∧ (∀ row column, is_Some (ws !! (row, column)) → (row ≤ m)%nat)
              ∧ (m = 1%nat ∨ ∃ column, is_Some (ws !! (m, column))))).
  - split; [done |]. split; [| by left].
    intros row column. rewrite lookup_empty. by intros [? ?].
  - intros [r c] v m n Hfresh (Hone & Hbound & Hmax). cbn [fst].
    split; [lia |]. split.
    + intros row column. rewrite lookup_insert. case_decide as Heq.
      * injection Heq as <- <-. lia.
      * intros Hsome%Hbound. lia.
    + destruct (decide (n ≤ r)%nat) as [Hle | Hgt].
      * right. exists c. rewrite Nat.max_l by done.
        rewrite lookup_insert_eq. by eexists.
      * rewrite Nat.max_r by lia. destruct Hmax as [-> | [c' Hc']]; [by left |].
        right. exists c'. rewrite lookup_insert_ne; [done |].
        intros [= <- <-]. lia.
Qed.

Lemma max_row_insert ws row column v :
  max_row (<[(row, column) := v]> ws) = max row (max_row ws).
Proof.
  destruct (max_row_spec ws) as (Hone & Hbound & Hmax).
  destruct (max_row_spec (<[(row, column) := v]> ws)) as (Hone' & Hbound' & Hmax').
  apply Nat.le_antisymm.
  - destruct Hmax' as [-> | [c Hc]]; [lia |].
    rewrite lookup_insert in Hc. case_decide as Heq.
    + injection Heq as Heq _. lia.
    + apply Hbound in Hc. lia.
  - apply Nat.max_lub.
    + apply (Hbound' row column). rewrite lookup_insert_eq. by eexists.
    + destruct Hmax as [-> | [c Hc]]; [done |].
      apply (Hbound' _ c). rewrite lookup_insert. by case_decide.
Qed.

Lemma write_cells_other_row row cells ws row' column :
  row' ≠ row → write_cells row cells ws !! (row', column) = ws !! (row', column).
Proof.
  intros Hne. unfold write_cells. revert ws.
  induction cells as [| cell cells IH]; intros ws; [done |].
  cbn. rewrite IH. apply lookup_insert_ne. congruence.
Qed.

Lemma write_cells_max_row row cells ws :
  cells ≠ [] → max_row (write_cells row cells ws) = max row (max_row ws).
Proof.
  unfold write_cells. revert ws.
  induction cells as [| cell cells IH]; intros ws Hne; [done |].
  cbn. destruct cells as [| cell' cells].
  - cbn. apply max_row_insert.
  - rewrite IH by done. rewrite max_row_insert. lia.
Qed.

Lemma write_cells_lookup row cells ws column :
  NoDup cells.*1 →
  write_cells row cells ws !! (row, column)
  = match list_to_map (M := gmap nat cell_value) cells !! column with
    | Some v => Some v
    | None => ws !! (row, column)
    end.
Proof.
  unfold write_cells. revert ws.
  induction cells as [| [c v] cells IH]; intros ws Hnd; [done |].
  apply NoDup_cons in Hnd as [Hc Hnd]. cbn. rewrite IH by done.
  rewrite (lookup_insert (list_to_map cells)). case_decide as Heq.
  - subst c. rewrite (not_elem_of_list_to_map_1 (M := gmap nat)) by done.
    apply lookup_insert_eq.
  - destruct (list_to_map cells !! column); [done |].
    apply lookup_insert_ne. congruence.
Qed.

Lemma write_row_cells row values ws :
  write_row row values ws
  = write_cells row (zip (seq 1 (length values)) values) ws.
Proof. reflexivity. Qed.

Lemma write_row_other_row row values ws row' column :
  row' ≠ row → write_row row values ws !! (row', column) = ws !! (row', column).
Proof. apply write_cells_other_row. Qed.

Lemma write_row_max_row row values ws :
  values ≠ [] → max_row (write_row row values ws) = max row (max_row ws).
Proof.
  intros Hne. rewrite write_row_cells. apply write_cells_max_row.
  by destruct values.
Qed.

Lemma write_row_first row v values ws :
  write_row row (v :: values) ws !! (row, 1%nat) = Some v.
Proof.
  rewrite write_row_cells, write_cells_lookup.
  - cbn. by rewrite lookup_insert_eq.
  - rewrite fst_zip by (rewrite length_seq; lia). apply NoDup_seq.
Qed.

Lemma filter_ext_elem {A} (P Q : A → Prop) `{!∀ x, Decision (P x)}
    `{!∀ x, Decision (Q x)} (l : list A) :
  (∀ x, x ∈ l → P x ↔ Q x) → filter P l = filter Q l.
Proof.
  induction l as [| x l IH]; intros Hext; [done |].
  rewrite !filter_cons, IH by (intros; apply Hext; by right).
  destruct (decide (P x)) as [HP | HP], (decide (Q x)) as [HQ | HQ]; try done.
  - destruct HQ. apply Hext; [left | done].
  - destruct HP. apply Hext; [left | done].
Qed.

(** The data rows depend only on what is below the header. *)
Lemma summary_rows_ext run_id ws ws' :
  max_row ws' = max_row ws →
  (∀ row, (2 ≤ row)%nat → ws' !! (row, 1%nat) = ws !! (row, 1%nat)) →
  summary_rows run_id ws' = summary_rows run_id ws.
Proof.
  intros Hmax Hcells. unfold summary_rows. rewrite Hmax.
  apply filter_ext_elem. intros row [Hrow _]%elem_of_seq. by rewrite Hcells.
Qed.

Lemma summary_rows_migrate run_id ws :
  summary_rows run_id (migrate_headers ws) = summary_rows run_id ws.
Proof.
  unfold migrate_headers. destruct (cell_is_none ws 1 11); [| done].
  destruct (max_row_spec ws) as [Hone _].
  apply summary_rows_ext.
  - rewrite !max_row_insert. lia.
  - intros row Hrow. rewrite !lookup_insert_ne; [done | intros [= Heq _]; lia ..].
Qed.

(** Appending a row for [run_id] adds exactly that row. *)
Lemma summary_rows_append run_id values ws next_row :
  next_row = (max_row ws + 1)%nat →
  summary_rows run_id (write_row next_row (CellStr run_id :: values) ws)
  = summary_rows run_id ws ++ [next_row].
Proof.
  intros Hnext. destruct (max_row_spec ws) as (Hone & Hbound & _).
  unfold summary_rows. rewrite write_row_max_row by done.
  replace (max next_row (max_row ws) - 1)%nat with (max_row ws - 1 + 1)%nat
    by lia.
  rewrite seq_app, filter_app. f_equal.
  - apply filter_ext_elem. intros row [_ Hrow]%elem_of_seq.
    rewrite write_row_other_row; [done | lia].
  - replace (2 + (max_row ws - 1))%nat with next_row by lia.
    cbn [seq]. rewrite filter_cons, filter_nil.
    by rewrite decide_True by apply write_row_first.
Qed.

Lemma sheet_alter_titles f title wb : (sheet_alter f title wb).*1 = wb.*1.
Proof.
  induction wb as [| [t ws] wb IH]; [done |]. cbn.
  destruct (decide (t = title)); cbn; [done | by rewrite IH].
Qed.

Lemma sheet_alter_same f title wb :
  sheet title (sheet_alter f title wb) = f <$> sheet title wb.
Proof.
  unfold sheet. induction wb as [| [t ws] wb IH]; [done |]. cbn.
  destruct (decide (t = title)) as [-> | Hne]; cbn.
  - by rewrite !bool_decide_eq_true_2.
  - by rewrite !bool_decide_eq_false_2.
Qed.

Lemma sheet_alter_other f title wb title' :
  title' ≠ title → sheet title' (sheet_alter f title wb) = sheet title' wb.
Proof.
  intros Hne. unfold sheet. induction wb as [| [t ws] wb IH]; [done |]. cbn.
  destruct (decide (t = title)) as [-> | Ht]; cbn.
  - by rewrite !bool_decide_eq_false_2.
  - destruct (bool_decide (t = title')); [done | exact IH].
Qed.

Lemma sheet_delete_other title wb title' :
  title' ≠ title → sheet title' (sheet_delete title wb) = sheet title' wb.
Proof.
  intros Hne. unfold sheet. induction wb as [| [t ws] wb IH]; [done |]. cbn.
  destruct (decide (t = title)) as [-> | Ht]; cbn.
  - by rewrite bool_decide_eq_false_2.
  - destruct (bool_decide (t = title')); [done | exact IH].
Qed.

Lemma sheet_delete_titles title wb :
  NoDup wb.*1 →
  NoDup (sheet_delete title wb).*1
  ∧ (title ∉ (sheet_delete title wb).*1)
  ∧ ∀ title', title' ∈ ((sheet_delete title wb).*1) → title' ∈ wb.*1.
Proof.
  induction wb as [| [t ws] wb IH]; cbn.
  - intros _. split; [constructor |]. split; [apply not_elem_of_nil | done].
  - intros [Ht Hnd]%NoDup_cons. destruct (IH Hnd) as (IH1 & IH2 & IH3).
    destruct (decide (t = title)) as [-> | Hne]; cbn.
    + split; [done |]. split; [done |]. intros. by right.
    + split; [| split].
      * apply NoDup_cons. split; [| done]. intros Hin. by apply Ht, IH3.
      * intros [? | ?]%elem_of_cons; [done | by apply IH2].
      * intros title' [-> | Hin]%elem_of_cons; [left | right; by apply IH3].
Qed.

Lemma sheet_is_Some title wb : is_Some (sheet title wb) ↔ title ∈ wb.*1.
Proof.
  unfold sheet. induction wb as [| [t ws] wb IH]; cbn.
  - split; [by intros [? ?] | by intros ?%elem_of_nil].
  - destruct (decide (t = title)) as [-> | Hne].
    + rewrite bool_decide_eq_true_2 by done. cbn.
      split; [intros _; left | by eexists].
    + rewrite bool_decide_eq_false_2 by done. rewrite IH.
      split; [by right | by intros [? | ?]%elem_of_cons].
Qed.

Lemma sheet_app_l title wb more :
  title ∈ wb.*1 → sheet title (wb ++ more) = sheet title wb.
Proof.
  unfold sheet. induction wb as [| [t ws] wb IH]; cbn;
    [by intros ?%elem_of_nil |].
  destruct (bool_decide (t = title)) eqn:E; [done |].
  apply bool_decide_eq_false in E.
  intros [? | ?]%elem_of_cons; [done | by apply IH].
Qed.

Lemma sheets_titled_new title ws wb :
  title ∉ wb.*1 → sheets_titled title (wb ++ [(title, ws)]) = [(title, ws)].
Proof.
  intros Hnew. unfold sheets_titled. rewrite filter_app, filter_cons, filter_nil.
  rewrite decide_True by done.
  replace (filter (λ s : string * worksheet, s.1 = title) wb) with ([] : workbook);
    [done |].
  symmetry. induction wb as [| [t ws'] wb IH]; [done |].
  apply not_elem_of_cons in Hnew as [Hne Hnew]. cbn in Hne.
  rewrite filter_cons, decide_False by (cbn; congruence). by apply IH.
Qed.

End worksheets.

(** ** The run persistence ledger *)

Section ledger.

Import benchmark_orchestrator ledger_rules.

Implicit Types (spec : run_spec) (synthesis : synthesis) (wb : workbook).
Implicit Types (comparison : option compare_runs.comparison).
Implicit Types (files : ledger_files).

Lemma summary_rows_fresh run_id :
  summary_rows run_id (_create_summary_headers ∅) = [].
Proof.
  unfold summary_rows, _create_summary_headers.
  rewrite write_row_max_row by done.
  replace (max_row ∅) with 1%nat by done. done.
Qed.

Lemma has_summary_header_fresh : has_summary_header (_create_summary_headers ∅).
Proof.
  intros i header Hi.
  do 13 (destruct i as [| i]; [injection Hi as <-; reflexivity |]).
  discriminate Hi.
Qed.

(** A sheet that has the full header is left as it is by the migration. *)
Lemma has_summary_header_migrate ws :
  has_summary_header ws → has_summary_header (migrate_headers ws).
Proof.
  intros Hheader. unfold migrate_headers, cell_is_none.
  by rewrite (Hheader 10%nat "vs_baseline" eq_refl).
Qed.

Lemma has_summary_header_write_row row values ws :
  row ≠ 1%nat → has_summary_header ws → has_summary_header (write_row row values ws).
Proof.
  intros Hrow Hheader i header Hi. rewrite write_row_other_row by done.
  by apply Hheader.
Qed.

(** One pass over an opened workbook: a row for the run is added to the
    summary sheet and the run's detail sheet is the only one of its title. *)
Lemma persist_workbook_step now spec synthesis comparison wb
    styles image_count output_dir :
  rs_styles spec = Some styles → rs_image_count spec = Some image_count →
  rs_output_dir spec = Some output_dir →
  rs_run_id spec ≠ "Summary" → NoDup wb.*1 →
  ∃ wb' summary_ws,
    persist_workbook now spec synthesis comparison wb = Returned wb'
    ∧ NoDup wb'.*1
    ∧ sheet "Summary" wb' = Some summary_ws
    ∧ length (summary_rows (rs_run_id spec) summary_ws)
      = S (length (summary_rows (rs_run_id spec) (default ∅ (sheet "Summary" wb))))
    ∧ sheets_titled (rs_run_id spec) wb'
      = [(rs_run_id spec, detail_sheet (rs_run_id spec) synthesis)]
    ∧ (has_summary_header
         (default (_create_summary_headers ∅) (sheet "Summary" wb)) →
       has_summary_header summary_ws).
Proof.
  intros Hstyles Hcount Hdir Hrun Hnd.
  unfold persist_workbook. rewrite Hstyles, Hcount, Hdir. cbn [item mbind outcome_bind].
  set (run_id := rs_run_id spec) in *.
  (* the workbook with a summary sheet *)
  set (wb1 := if decide ("Summary" ∈ wb.*1) then wb
              else ("Summary", _create_summary_headers ∅) :: wb).
  assert (NoDup wb1.*1) as Hnd1.
  { unfold wb1. destruct (decide _); [done |]. by apply NoDup_cons. }
  assert (∃ ws0, sheet "Summary" wb1 = Some ws0
                 ∧ summary_rows run_id ws0
                   = summary_rows run_id (default ∅ (sheet "Summary" wb))
                 ∧ ws0 = default (_create_summary_headers ∅) (sheet "Summary" wb))
    as (ws0 & Hws0 & Hrows0 & Hdefault).
  { unfold wb1. destruct (decide ("Summary" ∈ wb.*1)) as [Hin | Hnin].
    - apply sheet_is_Some in Hin as [ws0 Hws0]. exists ws0. by rewrite Hws0.
    - exists (_create_summary_headers ∅). split; [done |].
      rewrite summary_rows_fresh.
      destruct (sheet "Summary" wb) as [ws |] eqn:E; [| done].
      destruct Hnin. apply sheet_is_Some. by eexists. }
  (* after the header migration and the new row *)
  set (wb2 := sheet_alter migrate_headers "Summary" wb1).
  assert (sheet "Summary" wb2 = Some (migrate_headers ws0)) as Hws2
    by (unfold wb2; by rewrite sheet_alter_same, Hws0).
  rewrite Hws2.
  change (default ∅ (Some (migrate_headers ws0))) with (migrate_headers ws0).
  set (next_row := (max_row (migrate_headers ws0) + 1)%nat).
  match goal with |- context [sheet_alter (write_row next_row ?data) _ wb2] =>
    set (summary_data := data) end.
  set (wb3 := sheet_alter (write_row next_row summary_data) "Summary" wb2).
  assert (NoDup wb3.*1) as Hnd3
    by (unfold wb3, wb2; by rewrite !sheet_alter_titles).
  assert (sheet "Summary" wb3
          = Some (write_row next_row summary_data (migrate_headers ws0))) as Hws3
    by (unfold wb3; by rewrite sheet_alter_same, Hws2).
  (* after the detail sheet has been replaced *)
  set (wb4 := if decide (run_id ∈ wb3.*1) then sheet_delete run_id wb3 else wb3).
  assert (NoDup wb4.*1 ∧ (run_id ∉ wb4.*1)
          ∧ sheet "Summary" wb4 = sheet "Summary" wb3) as (Hnd4 & Hnew & Hws4).
  { unfold wb4. destruct (decide (run_id ∈ wb3.*1)) as [Hin | Hnin]; [| done].
    destruct (sheet_delete_titles run_id wb3 Hnd3) as (? & ? & _).
    by rewrite sheet_delete_other. }
  eexists _, _. split; [reflexivity |]. split; [| split; [| split; [| split]]].
  - rewrite fmap_app. apply NoDup_app. split; [done |].
    split; [| apply NoDup_singleton].
    by intros title Hin ->%list_elem_of_singleton.
  - rewrite sheet_app_l; [by rewrite Hws4, Hws3 |].
    apply sheet_is_Some. rewrite Hws4, Hws3. by eexists.
  - unfold summary_data. rewrite summary_rows_append by done.
    rewrite length_app, summary_rows_migrate, Hrows0. cbn [length]. lia.
  - by apply sheets_titled_new.
  - rewrite <- Hdefault. intros Hheader.
    apply has_summary_header_write_row;
      [destruct (max_row_spec (migrate_headers ws0)) as [? _];
       unfold next_row; lia |].
    by apply has_summary_header_migrate.
Qed.

Lemma back_up_invalid_cases files :
  back_up_invalid files
  = match lf_excel files with
    | Some (NotXlsx bytes) =>
        {| lf_excel := None; lf_backup := Some (NotXlsx bytes) |}
    | _ => files
    end.
Proof.
  unfold back_up_invalid.
  destruct (lf_excel files) as [[wb | bytes] |]; cbn; [done | | done].
  by destruct (decide (take 4 bytes = OLE2_MAGIC)).
Qed.

(** One call of [persist_to_excel] with openpyxl present. *)
Lemma persist_to_excel_once now spec synthesis comparison files
    styles image_count output_dir :
  rs_styles spec = Some styles → rs_image_count spec = Some image_count →
  rs_output_dir spec = Some output_dir →
  rs_run_id spec ≠ "Summary" → titles_unique files →
  ∃ wb' summary_ws,
    persist_to_excel true now spec synthesis comparison files
    = ({| lf_excel := Some (Xlsx wb');
          lf_backup := match lf_excel files with
                       | Some (NotXlsx bytes) => Some (NotXlsx bytes)
                       | _ => lf_backup files
                       end |}, Returned ())
    ∧ NoDup wb'.*1
    ∧ sheet "Summary" wb' = Some summary_ws
    ∧ length (summary_rows (rs_run_id spec) summary_ws)
      = S (length (summary_rows (rs_run_id spec) (summary_on_disk files)))
    ∧ sheets_titled (rs_run_id spec) wb'
      = [(rs_run_id spec, detail_sheet (rs_run_id spec) synthesis)]
    ∧ ((∀ wb, lf_excel files ≠ Some (Xlsx wb)) → has_summary_header summary_ws).
Proof.
  intros Hstyles Hcount Hdir Hrun Hunique.
  assert (∃ wb, open_or_create (back_up_invalid files) = Returned wb
                ∧ NoDup wb.*1
                ∧ summary_rows (rs_run_id spec) (default ∅ (sheet "Summary" wb))
                  = summary_rows (rs_run_id spec) (summary_on_disk files)
                ∧ lf_backup (back_up_invalid files)
                  = match lf_excel files with
                    | Some (NotXlsx bytes) => Some (NotXlsx bytes)
                    | _ => lf_backup files
                    end
                ∧ ((∀ wb, lf_excel files ≠ Some (Xlsx wb)) →
                   wb = [("Summary", _create_summary_headers ∅)]))
    as (wb & Hopen & Hnd & Hdisk & Hbackup & Hfresh).
  { rewrite back_up_invalid_cases. unfold open_or_create, summary_on_disk.
    destruct (lf_excel files) as [[wb | bytes] |] eqn:Hfile.
    - rewrite Hfile. exists wb. split; [done |]. split; [by apply Hunique |].
      split; [done |]. split; [done |]. intros Hno. by destruct (Hno wb).
    - eexists. split; [reflexivity |]. split; [apply NoDup_singleton |].
      split; [| done]. cbn [sheet List.find]. by rewrite summary_rows_fresh.
    - rewrite Hfile. eexists. split; [reflexivity |].
      split; [apply NoDup_singleton |].
      split; [| done]. cbn [sheet List.find]. by rewrite summary_rows_fresh. }
  destruct (persist_workbook_step now spec synthesis comparison wb
              styles image_count output_dir Hstyles Hcount Hdir Hrun Hnd)
    as (wb' & ws' & Hstep & Hnd' & Hws & Hrows & Hdetail & Hheader).
  exists wb', ws'. split; [| rewrite <- Hdisk; repeat split; try done].
  2: { intros Hno. apply Hheader. rewrite (Hfresh Hno).
       apply has_summary_header_fresh. }
  unfold persist_to_excel. cbn [negb]. cbn zeta. rewrite Hopen.
  change (Returned wb ≫= persist_workbook now spec synthesis comparison)
    with (persist_workbook now spec synthesis comparison wb).
  by rewrite Hstep, Hbackup.
Qed.

(** C7: persisting twice for one run id (other than the summary sheet's
    own title, with the keys of the specification present and openpyxl
    installed) succeeds both times; the summary sheet gains one row for
    the run each time, two in all, while the workbook holds exactly one
    sheet titled with the run id after the first call and after the
    second, the one written last. *)
Theorem C7_summary_appends_detail_replaces now1 now2 spec
    synthesis1 synthesis2 comparison1 comparison2 files
    styles image_count output_dir :
  rs_styles spec = Some styles → rs_image_count spec = Some image_count →
  rs_output_dir spec = Some output_dir →
  rs_run_id spec ≠ "Summary" → titles_unique files →
  let run_id := rs_run_id spec in
  let first := persist_to_excel true now1 spec synthesis1 comparison1 files in
  let second := persist_to_excel true now2 spec synthesis2 comparison2 first.1 in
  first.2 = Returned () ∧ second.2 = Returned ()
  ∧ ∃ wb1 summary1 wb2 summary2,
      lf_excel first.1 = Some (Xlsx wb1)
      ∧ sheet "Summary" wb1 = Some summary1
      ∧ length (summary_rows run_id summary1)
        = (1 + length (summary_rows run_id (summary_on_disk files)))%nat
      ∧ sheets_titled run_id wb1 = [(run_id, detail_sheet run_id synthesis1)]
      ∧ lf_excel second.1 = Some (Xlsx wb2)
      ∧ sheet "Summary" wb2 = Some summary2
      ∧ length (summary_rows run_id summary2)
        = (2 + length (summary_rows run_id (summary_on_disk files)))%nat
      ∧ sheets_titled run_id wb2 = [(run_id, detail_sheet run_id synthesis2)].
Proof.
  intros Hstyles Hcount Hdir Hrun Hunique run_id first second.
  destruct (persist_to_excel_once now1 spec synthesis1 comparison1 files
              styles image_count output_dir Hstyles Hcount Hdir Hrun Hunique)
    as (wb1 & summary1 & Hfirst & Hnd1 & Hws1 & Hrows1 & Hdetail1 & _).
  fold first in Hfirst.
  assert (titles_unique first.1) as Hunique1.
  { rewrite Hfirst. intros wb [= <-]. exact Hnd1. }
  destruct (persist_to_excel_once now2 spec synthesis2 comparison2 first.1
              styles image_count output_dir Hstyles Hcount Hdir Hrun Hunique1)
    as (wb2 & summary2 & Hsecond & Hnd2 & Hws2 & Hrows2 & Hdetail2 & _).
  fold second in Hsecond.
  assert (summary_on_disk first.1 = summary1) as Hdisk.
  { unfold summary_on_disk. rewrite Hfirst. cbn. by rewrite Hws1. }
  rewrite Hdisk in Hrows2.
  split; [by rewrite Hfirst |]. split; [by rewrite Hsecond |].
  exists wb1, summary1, wb2, summary2.
  rewrite Hfirst, Hsecond. cbn [fst lf_excel].
  repeat split; try done. fold run_id in Hrows1, Hrows2 |- *. lia.
Qed.

Lemma C7_summary_appends_detail_replaces_witness :
  let spec := sample_spec ["Anime"; "Pop Art"; "Storybook"] (1 # 2) (1 # 2) in
  let first :=
    persist_to_excel true "2026-02-04T10:00:00" spec sample_synthesis None
      no_ledger in
  let second :=
    persist_to_excel true "2026-02-04T11:00:00" spec sample_synthesis None
      first.1 in
  ∃ wb2 summary2,
    lf_excel second.1 = Some (Xlsx wb2)
    ∧ sheet "Summary" wb2 = Some summary2
    ∧ length (summary_rows "Run_2026_02_04" summary2) = 2%nat
    ∧ length (sheets_titled "Run_2026_02_04" wb2) = 1%nat.
Proof.
  intros spec first second.
  destruct (C7_summary_appends_detail_replaces
              "2026-02-04T10:00:00" "2026-02-04T11:00:00" spec
              sample_synthesis sample_synthesis None None no_ledger
              ["Anime"; "Pop Art"; "Storybook"] 3%Z "runs/Run_2026_02_04"
              eq_refl eq_refl eq_refl)
    as (_ & _ & wb1 & summary1 & wb2 & summary2
        & _ & _ & _ & _ & Hfile & Hsheet & Hrows & Hdetail).
  - discriminate.
  - intros wb Hwb. discriminate Hwb.
  - exists wb2, summary2. split; [exact Hfile |]. split; [exact Hsheet |].
    split; [exact Hrows |]. change (rs_run_id spec) with "Run_2026_02_04" in Hdetail.
    by rewrite Hdetail.
Defined.

(** C8: with openpyxl installed and the keys of the specification present,
    a ledger file that [load_workbook] rejects (an OLE2 .xls among them) is
    kept, byte for byte, as the backup and removed; the workbook then opened
    is a new one whose only sheet is the summary sheet with the 13-column
    header; the call returns without raising and saves what the run adds to
    that new workbook. For a run id other than the summary sheet's own title
    the saved summary sheet still has the header, with one row for the run,
    next to the run's detail sheet. *)
Theorem C8_invalid_ledger_is_backed_up_and_recreated now spec synthesis comparison
    files bytes styles image_count output_dir :
  lf_excel files = Some (NotXlsx bytes) →
  rs_styles spec = Some styles → rs_image_count spec = Some image_count →
  rs_output_dir spec = Some output_dir →
  let result := persist_to_excel true now spec synthesis comparison files in
  let fresh := [("Summary", _create_summary_headers ∅)] in
  back_up_invalid files = {| lf_excel := None; lf_backup := Some (NotXlsx bytes) |}
  ∧ open_or_create (back_up_invalid files) = Returned fresh
  ∧ has_summary_header (_create_summary_headers ∅)
  ∧ result.2 = Returned ()
  ∧ lf_backup result.1 = Some (NotXlsx bytes)
  ∧ (∃ wb, persist_workbook now spec synthesis comparison fresh = Returned wb
           ∧ lf_excel result.1 = Some (Xlsx wb))
  ∧ (rs_run_id spec ≠ "Summary" →
     ∃ wb summary_ws,
       lf_excel result.1 = Some (Xlsx wb)
       ∧ sheet "Summary" wb = Some summary_ws
       ∧ has_summary_header summary_ws
       ∧ length (summary_rows (rs_run_id spec) summary_ws) = 1%nat
       ∧ sheets_titled (rs_run_id spec) wb
         = [(rs_run_id spec, detail_sheet (rs_run_id spec) synthesis)]).
Proof.
  intros Hfile Hstyles Hcount Hdir result fresh.
  assert (back_up_invalid files
          = {| lf_excel := None; lf_backup := Some (NotXlsx bytes) |}) as Hbackup
    by (by rewrite back_up_invalid_cases, Hfile).
  assert (∃ wb, persist_workbook now spec synthesis comparison fresh = Returned wb)
    as [wb Hwb].
  { unfold persist_workbook. rewrite Hstyles, Hcount, Hdir. by eexists. }
  assert (result = ({| lf_excel := Some (Xlsx wb);
                       lf_backup := Some (NotXlsx bytes) |}, Returned ()))
    as Hresult.
  { unfold result, persist_to_excel. cbn [negb]. cbn zeta.
    rewrite Hbackup. unfold open_or_create. cbn [lf_excel lf_backup].
    change (Returned [("Summary", _create_summary_headers ∅)]
            ≫= persist_workbook now spec synthesis comparison)
      with (persist_workbook now spec synthesis comparison fresh).
    by rewrite Hwb. }
  split; [exact Hbackup |].
  split; [by rewrite Hbackup |].
  split; [apply has_summary_header_fresh |].
  split; [by rewrite Hresult |]. split; [by rewrite Hresult |].
  split; [exists wb; by rewrite Hresult |].
  intros Hrun.
  destruct (persist_to_excel_once now spec synthesis comparison files
              styles image_count output_dir Hstyles Hcount Hdir Hrun)
    as (wb' & ws' & Hcall & _ & Hws & Hrows & Hdetail & Hheader).
  { intros ? Hx. rewrite Hfile in Hx. discriminate Hx. }
  exists wb', ws'. fold result in Hcall. rewrite Hcall. cbn [fst lf_excel].
  split; [done |]. split; [done |]. split; [| split; [| done]].
  - apply Hheader. intros ? Hx. rewrite Hfile in Hx. discriminate Hx.
  - rewrite Hrows. unfold summary_on_disk. by rewrite Hfile.
Qed.

Lemma C8_invalid_ledger_is_backed_up_and_recreated_witness :
  let spec := sample_spec ["Anime"; "Pop Art"; "Storybook"] (1 # 2) (1 # 2) in
  let result :=
    persist_to_excel true "2026-02-04T10:00:00" spec sample_synthesis None
      ole2_ledger in
  result.2 = Returned ()
  ∧ lf_backup result.1 = lf_excel ole2_ledger
  ∧ ∃ wb summary_ws,
      lf_excel result.1 = Some (Xlsx wb)
      ∧ sheet "Summary" wb = Some summary_ws
      ∧ has_summary_header summary_ws.
Proof.
  intros spec result.
  destruct (C8_invalid_ledger_is_backed_up_and_recreated
              "2026-02-04T10:00:00" spec sample_synthesis None ole2_ledger
              [208; 207; 17; 224; 161; 177; 26; 225]%N
              ["Anime"; "Pop Art"; "Storybook"] 3%Z "runs/Run_2026_02_04"
              eq_refl eq_refl eq_refl eq_refl)
    as (_ & _ & _ & Hreturned & Hbackup & _ & Hstore).
  split; [exact Hreturned |]. split; [exact Hbackup |].
  destruct (Hstore ltac:(discriminate)) as (wb & ws & Hfile & Hsheet & Hheader & _).
  by exists wb, ws.
Defined.

(** Without openpyxl nothing is read or written. *)
Remark persist_to_excel_without_openpyxl now spec synthesis comparison files :
  persist_to_excel false now spec synthesis comparison files = (files, Returned ()).
Proof. reflexivity. Qed.

(** The run id has to differ from the summary sheet's title: a run called
    "Summary" has its detail sheet take the place of the summary sheet. *)
Remark persist_run_named_Summary :
  let spec :=
    {| rs_run_id := "Summary";
       rs_styles := Some ["Anime"; "Pop Art"; "Storybook"];
       rs_image_count := Some 3%Z;
       rs_output_dir := Some "runs/Summary";
       rs_baseline_run_id := None;
       rs_feasibility_model := "gemini-2.0-flash";
       rs_preference_model := "claude-opus";
       rs_feasibility_weight := 1 # 2;
       rs_preference_weight := 1 # 2;
       rs_pipeline_version := "1.1.0";
       rs_acrue_version := "v3" |} in
  let result :=
    persist_to_excel true "2026-02-04T10:00:00" spec sample_synthesis None
      no_ledger in
  lf_excel result.1 = Some (Xlsx [("Summary", detail_sheet "Summary" sample_synthesis)]).
Proof. reflexivity. Qed.

End ledger.
